(** * Cognitive SOAR: threat attribution pipeline

    A shallow embedding of [train_model.py] (the synthetic corpus generator
    and the training of the attribution stage) and of the analysis branch of
    [app.py] (feature encoding, risk contributions, classification,
    attribution, prescription), followed by the properties established about
    them.

    Conventions.
    - Python integers are [Z]; row counts and array sizes are [nat].
    - Probabilities are exact rationals [Q] (the source uses binary floats).
    - A pandas frame with a fixed set of columns is a list of records.
    - A dictionary read by key is a [gmap]; a dictionary whose insertion
      order is displayed is an association list.
    - A call that may raise returns a sum whose left side is the exception.
    - The process-wide NumPy random state is threaded explicitly.
    - The third-party estimators (PyCaret, scikit-learn) and the
      [genai_prescriptions] module are parameters of the development. *)

From Stdlib Require Import ZArith QArith Qround Qabs Lqa List String Lia Permutation.
From stdpp Require Import gmap strings list pretty.

Local Open Scope string_scope.
Local Open Scope Z_scope.

(** ** Feature schema *)

(** The fourteen columns, in the order of the [features] list. *)
Record InputDict := mkInput {
  having_IP_Address : Z;
  URL_Length : Z;
  Shortining_Service : Z;
  having_At_Symbol : Z;
  double_slash_redirecting : Z;
  Prefix_Suffix : Z;
  having_Sub_Domain : Z;
  SSLfinal_State : Z;
  URL_of_Anchor : Z;
  Links_in_tags : Z;
  SFH : Z;
  Abnormal_URL : Z;
  has_political_keyword : Z;
  sophistication_level : Z
}.

(** Column names as first-class keys, to speak about "the vectors that
    differ in one field only". *)
Inductive Field :=
| F_having_IP_Address | F_URL_Length | F_Shortining_Service
| F_having_At_Symbol | F_double_slash_redirecting | F_Prefix_Suffix
| F_having_Sub_Domain | F_SSLfinal_State | F_URL_of_Anchor | F_Links_in_tags
| F_SFH | F_Abnormal_URL | F_has_political_keyword | F_sophistication_level.

Definition get_field (k : Field) (d : InputDict) : Z :=
  match k with
  | F_having_IP_Address => having_IP_Address d
  | F_URL_Length => URL_Length d
  | F_Shortining_Service => Shortining_Service d
  | F_having_At_Symbol => having_At_Symbol d
  | F_double_slash_redirecting => double_slash_redirecting d
  | F_Prefix_Suffix => Prefix_Suffix d
  | F_having_Sub_Domain => having_Sub_Domain d
  | F_SSLfinal_State => SSLfinal_State d
  | F_URL_of_Anchor => URL_of_Anchor d
  | F_Links_in_tags => Links_in_tags d
  | F_SFH => SFH d
  | F_Abnormal_URL => Abnormal_URL d
  | F_has_political_keyword => has_political_keyword d
  | F_sophistication_level => sophistication_level d
  end.

Definition set_field (k : Field) (x : Z) (d : InputDict) : InputDict :=
  let '(mkInput a1 a2 a3 a4 a5 a6 a7 a8 a9 a10 a11 a12 a13 a14) := d in
  match k with
  | F_having_IP_Address => mkInput x a2 a3 a4 a5 a6 a7 a8 a9 a10 a11 a12 a13 a14
  | F_URL_Length => mkInput a1 x a3 a4 a5 a6 a7 a8 a9 a10 a11 a12 a13 a14
  | F_Shortining_Service => mkInput a1 a2 x a4 a5 a6 a7 a8 a9 a10 a11 a12 a13 a14
  | F_having_At_Symbol => mkInput a1 a2 a3 x a5 a6 a7 a8 a9 a10 a11 a12 a13 a14
  | F_double_slash_redirecting => mkInput a1 a2 a3 a4 x a6 a7 a8 a9 a10 a11 a12 a13 a14
  | F_Prefix_Suffix => mkInput a1 a2 a3 a4 a5 x a7 a8 a9 a10 a11 a12 a13 a14
  | F_having_Sub_Domain => mkInput a1 a2 a3 a4 a5 a6 x a8 a9 a10 a11 a12 a13 a14
  | F_SSLfinal_State => mkInput a1 a2 a3 a4 a5 a6 a7 x a9 a10 a11 a12 a13 a14
  | F_URL_of_Anchor => mkInput a1 a2 a3 a4 a5 a6 a7 a8 x a10 a11 a12 a13 a14
  | F_Links_in_tags => mkInput a1 a2 a3 a4 a5 a6 a7 a8 a9 x a11 a12 a13 a14
  | F_SFH => mkInput a1 a2 a3 a4 a5 a6 a7 a8 a9 a10 x a12 a13 a14
  | F_Abnormal_URL => mkInput a1 a2 a3 a4 a5 a6 a7 a8 a9 a10 a11 x a13 a14
  | F_has_political_keyword => mkInput a1 a2 a3 a4 a5 a6 a7 a8 a9 a10 a11 a12 x a14
  | F_sophistication_level => mkInput a1 a2 a3 a4 a5 a6 a7 a8 a9 a10 a11 a12 a13 x
  end.

#[global] Instance Field_eq_dec : EqDecision Field.
Proof. solve_decision. Defined.

(** ** app.py: sidebar form and feature encoding *)

Record FormValues := mkForm {
  url_length : string;       (* select_slider: Short / Normal / Long *)
  ssl_state : string;        (* select_slider: Trusted / Suspicious / None *)
  sub_domain : string;       (* select_slider: None / One / Many *)
  prefix_suffix : bool;
  has_ip : bool;
  short_service : bool;
  at_symbol : bool;
  abnormal_url : bool;
  political_keyword : bool;
  sophistication : string    (* select_slider: Low / Medium / High *)
}.

Definition input_dict (form_values : FormValues) : InputDict :=
  {| having_IP_Address := if has_ip form_values then 1 else -1;
     URL_Length :=
       if String.eqb (url_length form_values) "Short" then -1
       else if String.eqb (url_length form_values) "Normal" then 0 else 1;
     Shortining_Service := if short_service form_values then 1 else -1;
     having_At_Symbol := if at_symbol form_values then 1 else -1;
     double_slash_redirecting := -1;
     Prefix_Suffix := if prefix_suffix form_values then 1 else -1;
     having_Sub_Domain :=
       if String.eqb (sub_domain form_values) "None" then -1
       else if String.eqb (sub_domain form_values) "One" then 0 else 1;
     SSLfinal_State :=
       if String.eqb (ssl_state form_values) "None" then -1
       else if String.eqb (ssl_state form_values) "Suspicious" then 0 else 1;
     Abnormal_URL := if abnormal_url form_values then 1 else -1;
     URL_of_Anchor := 0; Links_in_tags := 0; SFH := 0;
     has_political_keyword := if political_keyword form_values then 1 else -1;
     sophistication_level :=
       if String.eqb (sophistication form_values) "Low" then -1
       else if String.eqb (sophistication form_values) "Medium" then 0 else 1 |}.

(** ** app.py: risk contributions *)

(** The [risk_scores] dictionary, in insertion order (the order in which
    [risk_scores.items()] feeds the chart). *)
Definition risk_scores (input_dict : InputDict) : list (string * Z) :=
  [ ("Bad SSL", if SSLfinal_State input_dict <? 1 then 25 else 0);
    ("Abnormal URL", if Abnormal_URL input_dict =? 1 then 20 else 0);
    ("Prefix/Suffix", if Prefix_Suffix input_dict =? 1 then 15 else 0);
    ("Shortened URL", if Shortining_Service input_dict =? 1 then 15 else 0);
    ("Complex Sub-domain", if having_Sub_Domain input_dict =? 1 then 10 else 0);
    ("Long URL", if URL_Length input_dict =? 1 then 10 else 0);
    ("Uses IP Address", if having_IP_Address input_dict =? 1 then 5 else 0);
    ("Political Keywords", if has_political_keyword input_dict =? 1 then 10 else 0);
    ("High Sophistication", if sophistication_level input_dict =? 1 then 15 else 0) ].

(** Total of a breakdown: the sum of the contributions. *)
Definition risk_total (scores : list (string * Z)) : Z :=
  fold_right (fun kv acc => snd kv + acc) 0 scores.

(** The condition under which a field's own factor fires in [risk_scores];
    the five fields without a factor are never risky. *)
Definition risky (k : Field) (x : Z) : bool :=
  match k with
  | F_SSLfinal_State => x <? 1
  | F_Abnormal_URL | F_Prefix_Suffix | F_Shortining_Service
  | F_having_Sub_Domain | F_URL_Length | F_having_IP_Address
  | F_has_political_keyword | F_sophistication_level => x =? 1
  | F_having_At_Symbol | F_double_slash_redirecting
  | F_URL_of_Anchor | F_Links_in_tags | F_SFH => false
  end.

(** ** app.py: threat actor profiles *)

Record Profile := mkProfile {
  name : string;
  description : string;
  characteristics : list string;
  motivations : string;
  typical_targets : string;
  color : string
}.

(** A Python value used as a dictionary key or as a cluster label: an
    integer, or a string. *)
Inductive PyValue :=
| PyInt (z : Z)
| PyStr (s : string).

#[global] Instance PyValue_eq_dec : EqDecision PyValue.
Proof. solve_decision. Defined.

#[global] Instance PyValue_countable : Countable PyValue.
Proof.
  refine (inj_countable'
            (fun v => match v with PyInt z => inl z | PyStr s => inr s end)
            (fun x => match x with inl z => PyInt z | inr s => PyStr s end) _).
  intros []; reflexivity.
Defined.

Definition THREAT_ACTOR_PROFILES : gmap PyValue Profile :=
  <[ PyInt 0 := {| name := "Organized Cybercrime";
             description := "High-volume, financially motivated threat actors using automated tools and infrastructure.";
             characteristics :=
               [ "Frequent use of IP addresses and URL shortening services";
                 "High volume of abnormal URL structures";
                 "Moderate sophistication with focus on quantity over quality";
                 "Targets financial gain through phishing campaigns" ];
             motivations := "Financial profit through credential theft, credit card fraud, and ransomware deployment";
             typical_targets := "Financial institutions, e-commerce sites, healthcare organizations";
             color := "red" |} ]>
  (<[ PyInt 1 := {| name := "State-Sponsored";
              description := "Nation-state actors with high sophistication and strategic objectives.";
              characteristics :=
                [ "Advanced evasion techniques and complex URL structures";
                  "High use of prefix/suffix manipulation and subdomain complexity";
                  "Poor SSL certificate usage for stealth";
                  "Targeted political and strategic intelligence gathering" ];
              motivations := "Intelligence collection, political espionage, and strategic advantage";
              typical_targets := "Government agencies, defense contractors, critical infrastructure";
              color := "blue" |} ]>
  (<[ PyInt 2 := {| name := "Hacktivist";
              description := "Ideologically motivated actors with mixed technical capabilities.";
              characteristics :=
                [ "High political keyword usage in campaigns";
                  "Mixed technical sophistication levels";
                  "Balanced approach to URL manipulation techniques";
                  "Focus on ideological messaging and disruption" ];
              motivations := "Political activism, social justice, and ideological statements";
              typical_targets := "Government websites, corporations, political organizations";
              color := "green" |} ]> ∅)).

(** The default handed to [THREAT_ACTOR_PROFILES.get]. *)
Definition unknown_profile : Profile :=
  {| name := "Unknown Threat Actor";
     description := "Unable to determine threat actor profile.";
     characteristics := [];
     motivations := "Unknown";
     typical_targets := "Unknown";
     color := "gray" |}.

(** [THREAT_ACTOR_PROFILES.get(cluster_id, {...})]. *)
Definition threat_profile_of (cluster_id : PyValue) : Profile :=
  default unknown_profile (THREAT_ACTOR_PROFILES !! cluster_id).

(** ** app.py: the analysis workflow *)

(** Row of the frame returned by PyCaret's classification [predict_model]. *)
Record Prediction := mkPrediction {
  prediction_label : Z;
  prediction_score : Q
}.

(** Rounding to the nearest integer, a tie going to the even one. *)
Definition rint (q : Q) : Z :=
  let f := Qfloor q in
  match Qcompare (q - inject_Z f) (1 # 2) with
  | Lt => f
  | Gt => f + 1
  | Eq => if Z.even f then f else f + 1
  end.

(** [round(x, 4)], as NumPy and pandas round. *)
Definition round4 (q : Q) : Q := (inject_Z (rint (q * 10000)) / 10000)%Q.

(** PyCaret's [predict_model] on a one-row frame.  A fitted binary classifier
    is represented by its [predict_proba] for class 1 on that row.  The
    predicted label is the arg-max of the two class probabilities (class 0 on
    a tie) and, with the defaults [raw_score=False] and [round=4],
    [prediction_score] is the probability of the predicted label rounded to
    four decimals. *)
Definition predict_model (classification_model : InputDict -> Q)
    (input_data : InputDict) : Prediction :=
  let p1 := classification_model input_data in
  if Qle_bool p1 (1 - p1)
  then {| prediction_label := 0; prediction_score := round4 (1 - p1) |}
  else {| prediction_label := 1; prediction_score := round4 p1 |}.

(** PyCaret's clustering [predict_model], imported as [predict_clustering]:
    the column 'Cluster' holds the estimator's integer cluster [k] as the
    string 'Cluster k'. *)
Definition predict_clustering (clustering_model : InputDict -> Z)
    (input_data : InputDict) : PyValue :=
  PyStr ("Cluster " ++ pretty (clustering_model input_data)).

(** Probability that the fitted classifier gives to a label. *)
Definition class_probability (classification_model : InputDict -> Q)
    (input_data : InputDict) (lbl : Z) : Q :=
  if lbl =? 1 then classification_model input_data
  else 1 - classification_model input_data.

(** What the workflow does to the outside world, in order. *)
Inductive Event :=
| EvPredictModel (input_data : InputDict)
| EvPredictClustering (input_data : InputDict)
| EvGeneratePrescription (provider : string) (context : InputDict)
| EvStError (msg : string)
| EvStatusUpdate (state : string).

(** A computation that appends to the event log. *)
Definition Run (A : Type) : Type := A * list Event.

Definition ret {A} (a : A) : Run A := (a, []).

Definition bind {A B} (m : Run A) (k : A -> Run B) : Run B :=
  let '(a, log1) := m in
  let '(b, log2) := k a in
  (b, (log1 ++ log2)%list).

Definition emit (e : Event) : Run unit := (tt, [e]).

Declare Scope run_scope.
Delimit Scope run_scope with run.
Notation "x <- m ;; k" := (bind m (fun x => k))
  (at level 100, m at next level, right associativity) : run_scope.
Notation "m ;;; k" := (bind m (fun _ => k))
  (at level 100, right associativity) : run_scope.

Section Workflow.
(** The two loaded artifacts and the generation module. *)
Variable classification_model : InputDict -> Q.
Variable clustering_model : InputDict -> Z.
Variable Prescription : Type.
Variable generate_prescription : string -> InputDict -> string + Prescription.

(** Everything the tabs read after the status block. *)
Record Analysis := mkAnalysis {
  an_input_dict : InputDict;
  an_risk_scores : list (string * Z);
  an_prediction : Prediction;
  an_is_malicious : bool;
  an_cluster_id : option PyValue;
  an_threat_profile : option Profile;
  an_prescription : option Prescription
}.

Definition call_predict_model (input_data : InputDict) : Run Prediction :=
  (emit (EvPredictModel input_data) ;;;
   ret (predict_model classification_model input_data))%run.

Definition call_predict_clustering (input_data : InputDict) : Run PyValue :=
  (emit (EvPredictClustering input_data) ;;;
   ret (predict_clustering clustering_model input_data))%run.

Definition call_generate_prescription (provider : string) (context : InputDict)
    : Run (string + Prescription) :=
  (emit (EvGeneratePrescription provider context) ;;;
   ret (generate_prescription provider context))%run.

(** The [else] branch of [if not submitted]: from the form to the values
    shown in the tabs.  An exception raised by [generate_prescription] is
    its [inl] result, carrying [str(e)]. *)
Definition analyze (form_values : FormValues) (genai_provider : string)
    : Run Analysis :=
  (let input_dict := input_dict form_values in
   let input_data := input_dict in
   let risk_scores := risk_scores input_dict in
   prediction <- call_predict_model input_data ;;
   let is_malicious := prediction_label prediction =? 1 in
   if is_malicious then
     cluster_id <- call_predict_clustering input_data ;;
     let threat_profile := threat_profile_of cluster_id in
     result <- call_generate_prescription genai_provider input_dict ;;
     match result with
     | inr prescription =>
         emit (EvStatusUpdate "complete") ;;;
         ret (mkAnalysis input_dict risk_scores prediction is_malicious
                (Some cluster_id) (Some threat_profile) (Some prescription))
     | inl e =>
         emit (EvStError ("Failed to generate prescription: " ++ e)%string) ;;;
         emit (EvStatusUpdate "error") ;;;
         ret (mkAnalysis input_dict risk_scores prediction is_malicious
                (Some cluster_id) (Some threat_profile) None)
     end
   else
     emit (EvStatusUpdate "complete") ;;;
     ret (mkAnalysis input_dict risk_scores prediction is_malicious
            None None None))%run.

(** The figure shown under "Malicious Confidence Score" in the first tab. *)
Definition malicious_confidence_score (a : Analysis) : Q :=
  if an_is_malicious a then prediction_score (an_prediction a)
  else 1 - prediction_score (an_prediction a).
End Workflow.

Arguments mkAnalysis {Prescription}.
Arguments an_input_dict {Prescription}.
Arguments an_risk_scores {Prescription}.
Arguments an_prediction {Prescription}.
Arguments an_is_malicious {Prescription}.
Arguments an_cluster_id {Prescription}.
Arguments an_threat_profile {Prescription}.
Arguments an_prescription {Prescription}.
Arguments analyze classification_model clustering_model {Prescription}.
Arguments malicious_confidence_score {Prescription}.

(** The events of a log that hand a feature vector to a model or to the
    prescription module. *)
Definition model_input (e : Event) : option InputDict :=
  match e with
  | EvPredictModel d | EvPredictClustering d | EvGeneratePrescription _ d => Some d
  | EvStError _ | EvStatusUpdate _ => None
  end.

Definition is_clustering_call (e : Event) : bool :=
  match e with EvPredictClustering _ => true | _ => false end.

Definition is_prescription_call (e : Event) : bool :=
  match e with EvGeneratePrescription _ _ => true | _ => false end.

(** ** train_model.py: NumPy's process-wide random state *)

(** [np.random] is one MT19937 generator for the whole process.  It is
    represented by the sequence of 32-bit words it will deliver next and the
    number already consumed.  Nothing in [train_model.py] seeds it before
    the corpus is generated. *)
Record RandomState := mkRandomState {
  variates : nat -> Z;
  position : nat
}.

Definition Rand (A : Type) : Type := RandomState -> A * RandomState.

Definition rret {A} (a : A) : Rand A := fun s => (a, s).

Definition rbind {A B} (m : Rand A) (k : A -> Rand B) : Rand B :=
  fun s => let '(a, s') := m s in k a s'.

Declare Scope rand_scope.
Delimit Scope rand_scope with rand.
Notation "x <- m ;; k" := (rbind m (fun x => k))
  (at level 100, m at next level, right associativity) : rand_scope.

Definition two32 : Z := 2 ^ 32.
Definition two53 : Z := 2 ^ 53.

(** The next 32-bit word. *)
Definition next_uint32 : Rand Z :=
  fun s => (variates s (position s) mod two32,
            {| variates := variates s; position := S (position s) |}).

(** The next 64 bits: two words, the first one in the high half. *)
Definition next_uint64 : Rand Z :=
  (hi <- next_uint32 ;; lo <- next_uint32 ;;
   rret (Z.lor (Z.shiftl hi 32) lo))%rand.

(** [random_sample()]: a double in [0, 1) with 53 random bits, 27 taken from
    one word and 26 from the next.  The sum and the quotient are exact in
    binary floating point. *)
Definition random_sample : Rand Q :=
  (a <- next_uint32 ;; b <- next_uint32 ;;
   rret (inject_Z (Z.shiftr a 5 * 67108864 + Z.shiftr b 6) / inject_Z two53)%Q)%rand.

(** The smallest mask of the form [2^k - 1] that is at least [max]. *)
Definition interval_mask (max : Z) : Z := Z.ones (Z.log2 max + 1).

(** Number of masked words NumPy's rejection loop is followed for.  The loop
    itself has no bound; a word is rejected with probability below one half,
    and a state that rejects this many words in a row is answered 0. *)
Definition rejection_limit : nat := 64.

Fixpoint masked_rejection (next : Rand Z) (tries : nat) (mask max : Z) : Rand Z :=
  match tries with
  | O => rret 0
  | S tries' =>
      (w <- next ;;
       let value := Z.land w mask in
       if value <=? max then rret value
       else masked_rejection next tries' mask max)%rand
  end.

(** [random_interval(max)]: an integer between 0 and [max], both included,
    found by masking words until one is at most [max]. *)
Definition random_interval (max : Z) : Rand Z :=
  if max =? 0 then rret 0
  else if max <=? 4294967295
       then masked_rejection next_uint32 rejection_limit (interval_mask max) max
       else masked_rejection next_uint64 rejection_limit (interval_mask max) max.

(** [x[i], x[j] = x[j], x[i]]. *)
Definition swap {A} (i j : nat) (x : list A) : list A :=
  match x !! i, x !! j with
  | Some xi, Some xj => <[i := xj]> (<[j := xi]> x)
  | _, _ => x
  end.

(** The loop of [shuffle] from index [i] down to 1: each position is
    exchanged with one drawn at or below it. *)
Fixpoint shuffle_from {A} (i : nat) (x : list A) : Rand (list A) :=
  match i with
  | O => rret x
  | S i' =>
      (j <- random_interval (Z.of_nat i) ;;
       shuffle_from i' (swap i (Z.to_nat j) x))%rand
  end.

(** [np.random.shuffle(x)]: [for i in reversed(range(1, n))]. *)
Definition shuffle {A} (x : list A) : Rand (list A) :=
  shuffle_from (length x - 1) x.

(** [np.random.permutation(n)]: [np.arange(n)], shuffled. *)
Definition permutation (n : nat) : Rand (list nat) := shuffle (seq 0 n).

Fixpoint cumsum_from (acc : Q) (p : list Q) : list Q :=
  match p with
  | [] => []
  | x :: p' => (acc + x)%Q :: cumsum_from (acc + x)%Q p'
  end.

(** [cdf = p.cumsum(); cdf /= cdf[-1]]. *)
Definition cdf_of (p : list Q) : list Q :=
  let cdf := cumsum_from 0%Q p in
  map (fun c => (c / List.last cdf 1%Q)%Q) cdf.

(** [cdf.searchsorted(u, side='right')] on a non-decreasing [cdf]: the
    position of the first entry greater than [u]. *)
Fixpoint searchsorted_right (cdf : list Q) (u : Q) : nat :=
  match cdf with
  | [] => 0%nat
  | c :: cdf' => if Qle_bool c u then S (searchsorted_right cdf' u) else 0%nat
  end.

(** One draw of [np.random.choice(a, p=p)]: [a[idx]] for the position [idx]
    of a uniform sample in the cumulative distribution.  With [p] summing to
    one, as in every table below, [idx] is a position of [a]. *)
Definition choice1 (a : list Z) (p : list Q) : Rand Z :=
  (u <- random_sample ;;
   rret (nth (searchsorted_right (cdf_of p) u) a 0))%rand.

(** [np.random.choice(a, size, p=p)]: [size] draws, in order. *)
Fixpoint choice (a : list Z) (size : nat) (p : list Q) : Rand (list Z) :=
  match size with
  | O => rret []
  | S size' =>
      (x <- choice1 a p ;; xs <- choice a size' p ;; rret (x :: xs))%rand
  end.

(** ** train_model.py: archetype distribution tables *)

(** One dictionary entry [np.random.choice(a, n, p=p)] of a profile. *)
Definition col (a : list Z) (p : list Q) : list Z * list Q := (a, p).
Local Notation "'among' a 'with_p' p" := (col a%Z p%Q)
  (at level 10, a at level 9, p at level 9).

(** Threat Actor Profile 1: State-Sponsored. *)
Definition state_sponsored_profile : list (list Z * list Q) :=
  [ among [1; -1] with_p [0.1; 0.9];            (* having_IP_Address *)
    among [1; 0; -1] with_p [0.7; 0.2; 0.1];    (* URL_Length *)
    among [1; -1] with_p [0.2; 0.8];            (* Shortining_Service *)
    among [1; -1] with_p [0.3; 0.7];            (* having_At_Symbol *)
    among [1; -1] with_p [0.4; 0.6];            (* double_slash_redirecting *)
    among [1; -1] with_p [0.8; 0.2];            (* Prefix_Suffix *)
    among [1; 0; -1] with_p [0.7; 0.2; 0.1];    (* having_Sub_Domain *)
    among [-1; 0; 1] with_p [0.7; 0.2; 0.1];    (* SSLfinal_State *)
    among [-1; 0; 1] with_p [0.6; 0.3; 0.1];    (* URL_of_Anchor *)
    among [-1; 0; 1] with_p [0.5; 0.3; 0.2];    (* Links_in_tags *)
    among [-1; 0; 1] with_p [0.7; 0.2; 0.1];    (* SFH *)
    among [1; -1] with_p [0.6; 0.4];            (* Abnormal_URL *)
    among [1; -1] with_p [0.3; 0.7];            (* has_political_keyword *)
    among [1; 0; -1] with_p [0.8; 0.15; 0.05]   (* sophistication_level *) ].

(** Threat Actor Profile 2: Organized Cybercrime. *)
Definition cybercrime_profile : list (list Z * list Q) :=
  [ among [1; -1] with_p [0.6; 0.4];
    among [1; 0; -1] with_p [0.2; 0.5; 0.3];
    among [1; -1] with_p [0.8; 0.2];
    among [1; -1] with_p [0.5; 0.5];
    among [1; -1] with_p [0.6; 0.4];
    among [1; -1] with_p [0.4; 0.6];
    among [1; 0; -1] with_p [0.3; 0.4; 0.3];
    among [-1; 0; 1] with_p [0.5; 0.3; 0.2];
    among [-1; 0; 1] with_p [0.4; 0.4; 0.2];
    among [-1; 0; 1] with_p [0.5; 0.3; 0.2];
    among [-1; 0; 1] with_p [0.6; 0.2; 0.2];
    among [1; -1] with_p [0.7; 0.3];
    among [1; -1] with_p [0.1; 0.9];
    among [1; 0; -1] with_p [0.2; 0.5; 0.3] ].

(** Threat Actor Profile 3: Hacktivist. *)
Definition hacktivist_profile : list (list Z * list Q) :=
  [ among [1; -1] with_p [0.4; 0.6];
    among [1; 0; -1] with_p [0.3; 0.4; 0.3];
    among [1; -1] with_p [0.5; 0.5];
    among [1; -1] with_p [0.4; 0.6];
    among [1; -1] with_p [0.4; 0.6];
    among [1; -1] with_p [0.5; 0.5];
    among [1; 0; -1] with_p [0.4; 0.4; 0.2];
    among [-1; 0; 1] with_p [0.4; 0.3; 0.3];
    among [-1; 0; 1] with_p [0.4; 0.3; 0.3];
    among [-1; 0; 1] with_p [0.4; 0.3; 0.3];
    among [-1; 0; 1] with_p [0.4; 0.3; 0.3];
    among [1; -1] with_p [0.5; 0.5];
    among [1; -1] with_p [0.7; 0.3];
    among [1; 0; -1] with_p [0.3; 0.5; 0.2] ].

(** Benign data. *)
Definition benign_profile : list (list Z * list Q) :=
  [ among [1; -1] with_p [0.05; 0.95];
    among [1; 0; -1] with_p [0.1; 0.6; 0.3];
    among [1; -1] with_p [0.1; 0.9];
    among [1; -1] with_p [0.05; 0.95];
    among [1; -1] with_p [0.05; 0.95];
    among [1; -1] with_p [0.1; 0.9];
    among [1; 0; -1] with_p [0.1; 0.4; 0.5];
    among [-1; 0; 1] with_p [0.05; 0.15; 0.8];
    among [-1; 0; 1] with_p [0.1; 0.2; 0.7];
    among [-1; 0; 1] with_p [0.1; 0.2; 0.7];
    among [-1; 0; 1] with_p [0.1; 0.1; 0.8];
    among [1; -1] with_p [0.1; 0.9];
    among [1; -1] with_p [0.05; 0.95];
    among [1; 0; -1] with_p [0.05; 0.1; 0.85] ].

(** A table entry is well formed when it gives one probability per value
    and the probabilities sum to one. *)
Definition well_formed_entry (e : list Z * list Q) : Prop :=
  length (fst e) = length (snd e) /\ snd e <> [] /\
  (List.last (cdf_of (snd e)) 1 == 1)%Q.

(** ** train_model.py: building the corpus *)

(** The dictionary of arrays of one profile: one [choice] per column, in
    the order the dictionary literal evaluates them. *)
Fixpoint sample_columns (profile : list (list Z * list Q)) (size : nat)
    : Rand (list (list Z)) :=
  match profile with
  | [] => rret []
  | (a, p) :: profile' =>
      (c <- choice a size p ;;
       cs <- sample_columns profile' size ;;
       rret (c :: cs))%rand
  end.

Definition column (data : list (list Z)) (j i : nat) : Z :=
  nth i (nth j data []) 0.

(** [pd.DataFrame(data)] for a dictionary of fourteen equally long arrays. *)
Definition DataFrame (data : list (list Z)) : list InputDict :=
  map (fun i =>
         mkInput (column data 0 i) (column data 1 i) (column data 2 i)
                 (column data 3 i) (column data 4 i) (column data 5 i)
                 (column data 6 i) (column data 7 i) (column data 8 i)
                 (column data 9 i) (column data 10 i) (column data 11 i)
                 (column data 12 i) (column data 13 i))
      (seq 0 (length (nth 0 data []))).

(** A row of the labelled corpus. *)
Record Row := mkRow {
  features : InputDict;
  label : Z;
  threat_actor : Z
}.

(** [df['label'] = l; df['threat_actor'] = t]. *)
Definition with_labels (l t : Z) (df : list InputDict) : list Row :=
  map (fun f => mkRow f l t) df.

(** [df.take(indices)]: the rows at the given positions, in that order. *)
Definition take_rows {A} (df : list A) (indices : list nat) : list A :=
  omap (fun i => df !! i) indices.

(** [df.sample(frac=1).reset_index(drop=True)]: with no [random_state]
    argument pandas asks NumPy's global generator for
    [choice(len(df), size=len(df), replace=False)], which is a
    [permutation] of the row positions, and takes the rows in that order. *)
Definition sample_frac_1 {A} (df : list A) : Rand (list A) :=
  (indices <- permutation (length df) ;; rret (take_rows df indices))%rand.

Definition generate_synthetic_data (num_samples : nat) : Rand (list Row) :=
  (let num_phishing := (num_samples / 2)%nat in
   let num_benign := (num_samples - num_phishing)%nat in
   let state_sponsored := (num_phishing / 3)%nat in
   state_sponsored_data <- sample_columns state_sponsored_profile state_sponsored ;;
   let cybercrime := (num_phishing / 3)%nat in
   cybercrime_data <- sample_columns cybercrime_profile cybercrime ;;
   let hacktivist := (num_phishing - state_sponsored - cybercrime)%nat in
   hacktivist_data <- sample_columns hacktivist_profile hacktivist ;;
   benign_data <- sample_columns benign_profile num_benign ;;
   let df_state_sponsored := with_labels 1 0 (DataFrame state_sponsored_data) in
   let df_cybercrime := with_labels 1 1 (DataFrame cybercrime_data) in
   let df_hacktivist := with_labels 1 2 (DataFrame hacktivist_data) in
   let df_benign := with_labels 0 (-1) (DataFrame benign_data) in
   let final_df :=
     (df_state_sponsored ++ df_cybercrime ++ df_hacktivist ++ df_benign)%list in
   sample_frac_1 final_df)%rand.



(** The archetype each [threat_actor] value stands for in the generator:
    0 is sampled from the state-sponsored table, 1 from the cybercrime table,
    2 from the hacktivist table; -1 marks benign rows. *)
Definition archetype_name (threat_actor : Z) : option string :=
  if threat_actor =? 0 then Some "State-Sponsored"
  else if threat_actor =? 1 then Some "Organized Cybercrime"
  else if threat_actor =? 2 then Some "Hacktivist"
  else None.

(** Number of rows satisfying a decidable condition. *)
Definition count_rows (P : Row -> Prop) `{forall r, Decision (P r)}
    (df : list Row) : nat :=
  length (filter P df).

(** ** train_model.py: the attribution stage *)

Section Training.
(** PyCaret's [setup(clustering_data, session_id=42)], [create_model('kmeans',
    num_clusters=3)] and [finalize_model], as one function of the frame they
    are given.  What comes back is of a type [Fitted] left open here: the
    fitted model, represented by the cluster it assigns to a vector, where
    the calls return; the exception or the model where they may raise, as in
    [train] below. *)
Variable Fitted : Type.
Variable create_model_kmeans : list InputDict -> Fitted.

(** [data.drop(['label', 'threat_actor'], axis=1)]. *)
Definition clustering_data (data : list Row) : list InputDict :=
  map features data.

Definition train_clustering_model (data : list Row) : Fitted :=
  create_model_kmeans (clustering_data data).
End Training.

Arguments train_clustering_model {Fitted}.

(** ** Notions used to state the attribution properties *)

(** The rows of a corpus that a fitted model puts in cluster [c]. *)
Definition cluster_members (model : InputDict -> Z) (data : list Row) (c : Z)
    : list Row :=
  filter (fun r => model (features r) = c) data.

(** [a] is a majority ground-truth archetype of [rows]: it occurs, and no
    archetype occurs more often. *)
Definition majority_archetype (rows : list Row) (a : Z) : Prop :=
  (0 < count_rows (fun r => threat_actor r = a) rows)%nat /\
  forall b, (count_rows (fun r => threat_actor r = b) rows
             <= count_rows (fun r => threat_actor r = a) rows)%nat.

(** The malicious rows of a corpus. *)
Definition malicious_rows (data : list Row) : list Row :=
  filter (fun r => label r = 1) data.

(** Points a field's factor adds when its condition holds. *)
Definition weight (k : Field) : Z :=
  match k with
  | F_SSLfinal_State => 25
  | F_Abnormal_URL => 20
  | F_Prefix_Suffix | F_Shortining_Service | F_sophistication_level => 15
  | F_having_Sub_Domain | F_URL_Length | F_has_political_keyword => 10
  | F_having_IP_Address => 5
  | F_having_At_Symbol | F_double_slash_redirecting
  | F_URL_of_Anchor | F_Links_in_tags | F_SFH => 0
  end.

(** The vectors handed to the classifier and to the clustering model. *)
Definition estimator_inputs (log : list Event) : list InputDict :=
  omap (fun e => match e with
                 | EvPredictModel d | EvPredictClustering d => Some d
                 | _ => None
                 end) log.

(** The four columns the form cannot set hold their constants. *)
Definition fixed_columns (d : InputDict) : Prop :=
  double_slash_redirecting d = -1 /\ URL_of_Anchor d = 0 /\
  Links_in_tags d = 0 /\ SFH d = 0.

(** ** Statements of the specification that are compared with the code *)

(** "The partition is fitted over the feature columns of the malicious rows
    only." *)
Definition fit_uses_malicious_rows_only : Prop :=
  forall data : list Row,
    clustering_data data = map features (malicious_rows data).

(** ** Concrete inputs used below *)

(** The form as the sidebar first shows it. *)
Definition default_form : FormValues :=
  {| url_length := "Long"; ssl_state := "Suspicious"; sub_domain := "One";
     prefix_suffix := true; has_ip := false; short_service := false;
     at_symbol := false; abnormal_url := true; political_keyword := false;
     sophistication := "Medium" |}.

(** Every flag at its clean value. *)
Definition clean_form : FormValues :=
  {| url_length := "Normal"; ssl_state := "Trusted"; sub_domain := "None";
     prefix_suffix := false; has_ip := false; short_service := false;
     at_symbol := false; abnormal_url := false; political_keyword := false;
     sophistication := "Low" |}.

(** A classifier that gives every vector probability 0.1 of being malicious,
    and one that gives 0.9. *)
Definition mostly_benign_model : InputDict -> Q := fun _ => 0.1%Q.
Definition mostly_malicious_model : InputDict -> Q := fun _ => 0.9%Q.

(** K-means models that put every vector in the same cluster. *)
Definition constant_cluster (c : Z) : InputDict -> Z := fun _ => c.

(** A generation module that always raises, and one that always succeeds. *)
Definition failing_provider : string -> InputDict -> string + unit :=
  fun _ _ => inl "API quota exceeded".
Definition working_provider : string -> InputDict -> string + unit :=
  fun _ _ => inr tt.

(** Two states of the global generator: every word 0, and every word
    [2^32 - 1]. *)
Definition low_state : RandomState := mkRandomState (fun _ => 0) 0.

(** A corpus of three hacktivist rows, and a corpus of one benign row. *)
Definition hacktivist_corpus : list Row :=
  [ mkRow (input_dict default_form) 1 2;
    mkRow (input_dict clean_form) 1 2;
    mkRow (set_field F_having_IP_Address 1 (input_dict clean_form)) 1 2 ].
Definition benign_only_corpus : list Row :=
  [ mkRow (input_dict clean_form) 0 (-1) ].

(** ** Declared domains of the columns and of the form *)

Definition all_fields : list Field :=
  [ F_having_IP_Address; F_URL_Length; F_Shortining_Service;
    F_having_At_Symbol; F_double_slash_redirecting; F_Prefix_Suffix;
    F_having_Sub_Domain; F_SSLfinal_State; F_URL_of_Anchor; F_Links_in_tags;
    F_SFH; F_Abnormal_URL; F_has_political_keyword; F_sophistication_level ].

(** The value list every profile hands to [np.random.choice] for a column. *)
Definition column_domain (k : Field) : list Z :=
  match k with
  | F_having_IP_Address | F_Shortining_Service | F_having_At_Symbol
  | F_double_slash_redirecting | F_Prefix_Suffix | F_Abnormal_URL
  | F_has_political_keyword => [1; -1]
  | F_URL_Length | F_having_Sub_Domain | F_sophistication_level => [1; 0; -1]
  | F_SSLfinal_State | F_URL_of_Anchor | F_Links_in_tags | F_SFH => [-1; 0; 1]
  end.

(** The sliders of the sidebar only offer their [options]. *)
Definition valid_form (f : FormValues) : Prop :=
  url_length f ∈ ["Short"; "Normal"; "Long"] /\
  ssl_state f ∈ ["Trusted"; "Suspicious"; "None"] /\
  sub_domain f ∈ ["None"; "One"; "Many"] /\
  sophistication f ∈ ["Low"; "Medium"; "High"].

(** The columns that have no factor in [risk_scores]. *)
Definition unscored (k : Field) : bool :=
  match k with
  | F_having_At_Symbol | F_double_slash_redirecting
  | F_URL_of_Anchor | F_Links_in_tags | F_SFH => true
  | _ => false
  end.

(** The form with the '@' checkbox set to [b]. *)
Definition with_at_symbol (b : bool) (f : FormValues) : FormValues :=
  {| url_length := url_length f; ssl_state := ssl_state f;
     sub_domain := sub_domain f; prefix_suffix := prefix_suffix f;
     has_ip := has_ip f; short_service := short_service f;
     at_symbol := b; abnormal_url := abnormal_url f;
     political_keyword := political_keyword f;
     sophistication := sophistication f |}.

Definition is_classifier_call (e : Event) : bool :=
  match e with EvPredictModel _ => true | _ => false end.

Definition is_error_report (e : Event) : bool :=
  match e with EvStError _ => true | _ => false end.

(** Number of events of a kind in a log. *)
Definition count_events (kind : Event -> bool) (log : list Event) : nat :=
  length (List.filter kind log).

(** Whether the generation module raised. *)
Definition raised {A B} (r : A + B) : bool :=
  match r with inl _ => true | inr _ => false end.

(** Position of a column in the [features] list. *)
Definition field_index (k : Field) : nat :=
  match k with
  | F_having_IP_Address => 0 | F_URL_Length => 1 | F_Shortining_Service => 2
  | F_having_At_Symbol => 3 | F_double_slash_redirecting => 4
  | F_Prefix_Suffix => 5 | F_having_Sub_Domain => 6 | F_SSLfinal_State => 7
  | F_URL_of_Anchor => 8 | F_Links_in_tags => 9 | F_SFH => 10
  | F_Abnormal_URL => 11 | F_has_political_keyword => 12
  | F_sophistication_level => 13
  end%nat.

(** Every column of a vector holds a value of its domain. *)
Definition in_domain (d : InputDict) : Prop :=
  forall k, get_field k d ∈ column_domain k.

(** A profile lists its columns in the order of the [features] list, each
    with the value list of that column. *)
Definition follows_schema (profile : list (list Z * list Q)) : Prop :=
  forall k, fst <$> profile !! field_index k = Some (column_domain k).

(** ** The files both programs share *)

(** A fitted PyCaret pipeline, by the frame it was fitted on: a classifier
    of the fourteen feature columns; a classifier of a frame that also has
    the [threat_actor] column; a clustering of the fourteen feature columns. *)
Inductive Pipeline :=
| FeatureClassifier (model : InputDict -> Q)
| CorpusClassifier (model : InputDict -> Z -> Q)
| Clusterer (model : InputDict -> Z).

(** What a file written by [train_model.py] holds. *)
Inductive Artifact :=
| Csv (data : list Row)
| Pickle (pipeline : Pipeline)
| FeatureImportancePlot (pipeline : Pipeline)
| ClusterPlot (scatter : list ((Q * Q) * PyValue))
              (annotations : list (string * (Q * Q))).

Inductive Node :=
| Dir
| File (content : Artifact).

(** The working directory: what each path names, if anything. *)
Abbreviation FileSystem := (gmap string Node).

(** [os.path.exists(path)]. *)
Definition path_exists (fs : FileSystem) (path : string) : bool :=
  match fs !! path with Some _ => true | None => false end.

(** A step of a script: it may change the files, and it returns or raises. *)
Definition IO (A : Type) : Type := FileSystem -> (string + A) * FileSystem.

Definition io_ret {A} (a : A) : IO A := fun fs => (inr a, fs).

Definition io_bind {A B} (m : IO A) (k : A -> IO B) : IO B :=
  fun fs =>
    match m fs with
    | (inl e, fs') => (inl e, fs')
    | (inr a, fs') => k a fs'
    end.

(** The outcome of a library call that leaves the files alone. *)
Definition lift {A} (outcome : string + A) : IO A := fun fs => (outcome, fs).

Declare Scope io_scope.
Delimit Scope io_scope with io.
Notation "x <- m ;; k" := (io_bind m (fun x => k))
  (at level 100, m at next level, right associativity) : io_scope.
Notation "m ;;; k" := (io_bind m (fun _ => k))
  (at level 100, right associativity) : io_scope.

(** [os.makedirs(path, exist_ok=True)] for a one-level path: raises when the
    path names a file. *)
Definition makedirs (path : string) : IO unit :=
  fun fs =>
    match fs !! path with
    | Some (File _) => (inl "FileExistsError", fs)
    | _ => (inr tt, <[path := Dir]> fs)
    end.

(** Creating or truncating a file whose parent directory exists: raises when
    the path names a directory. *)
Definition write_file (path : string) (content : Artifact) : IO unit :=
  fun fs =>
    match fs !! path with
    | Some Dir => (inl "IsADirectoryError", fs)
    | _ => (inr tt, <[path := File content]> fs)
    end.

(** [os.rename(src, dst)] for a file [src] (POSIX): an existing file at
    [dst] is replaced; raises when [src] is missing or [dst] is a directory.
    A directory [src], which [train] cannot have where it renames (the step
    before has just written the file), is not followed and answered by an
    error. *)
Definition rename (src dst : string) : IO unit :=
  fun fs =>
    match fs !! src, fs !! dst with
    | Some (File content), Some Dir => (inl "IsADirectoryError", fs)
    | Some (File content), _ =>
        (inr tt, <[dst := File content]> (delete src fs))
    | Some Dir, _ => (inl "OSError", fs)
    | None, _ => (inl "FileNotFoundError", fs)
    end.

(** PyCaret's [save_model(model, path)] writes [path + '.pkl']. *)
Definition save_model (model : Pipeline) (path : string) : IO unit :=
  write_file (path ++ ".pkl") (Pickle model).

(** PyCaret's [load_model(path)] reads [path + '.pkl'] back; raises unless
    that file holds a pickled pipeline. *)
Definition load_model (fs : FileSystem) (path : string) : string + Pipeline :=
  match fs !! (path ++ ".pkl")%string with
  | Some (File (Pickle pipeline)) => inr pipeline
  | Some (File _) => inl "UnpicklingError"
  | Some Dir => inl "IsADirectoryError"
  | None => inl "FileNotFoundError"
  end.


(** ** train_model.py: visualisation and the training entry point *)

Definition cluster_labels : list string :=
  ["Organized Cybercrime"; "State-Sponsored"; "Hacktivist"].

(** [enumerate(l)]. *)
Definition enumerate {A} (l : list A) : list (nat * A) :=
  combine (seq 0 (length l)) l.

(** [points.mean(axis=0)] for two-dimensional points. *)
Definition mean_axis0 (points : list (Q * Q)) : Q * Q :=
  let n := inject_Z (Z.of_nat (length points)) in
  ((fold_right Qplus 0 (map fst points) / n)%Q,
   (fold_right Qplus 0 (map snd points) / n)%Q).

(** [features_2d[predicted_cluster == i]]: the comparison of a column of
    Python values with the integer [i]. *)
Definition cluster_points (features_2d : list (Q * Q))
    (predicted_cluster : list PyValue) (i : nat) : list (Q * Q) :=
  map fst (filter (fun pc => snd pc = PyInt (Z.of_nat i))
             (combine features_2d predicted_cluster)).

(** The loop that labels the clusters which have points. *)
Definition cluster_annotations (features_2d : list (Q * Q))
    (predicted_cluster : list PyValue) : list (string * (Q * Q)) :=
  omap (fun il : nat * string =>
          let points := cluster_points features_2d predicted_cluster (fst il) in
          if (0 <? length points)%nat
          then Some (snd il, mean_axis0 points)
          else None)
       (enumerate cluster_labels).

Section Offline.
(** The library calls of [train_model.py], each of which may raise.  The
    names are those left by the two star imports, [pycaret.clustering] after
    [pycaret.classification]: [setup], [create_model], [predict_model],
    [plot_model] and [save_model] are the clustering module's. *)

(** [setup(data, target='label', session_id=42)], [compare_models] over
    rf / et / lightgbm and [finalize_model], on the whole corpus: apart from
    the target, the frame has the fourteen features and [threat_actor]. *)
Variable compare_and_finalize : list Row -> string + (InputDict -> Z -> Q).
(** [setup(clustering_data, session_id=42)], [create_model('kmeans',
    num_clusters=3)] and [finalize_model]. *)
Variable create_model_kmeans : list InputDict -> string + (InputDict -> Z).
(** [plot_model(model, plot='feature', save=True)]. *)
Variable plot_model : Pipeline -> string + unit.
(** [PCA(n_components=2).fit_transform]: one point per row. *)
Variable pca_fit_transform : list InputDict -> list (Q * Q).
(** [plt.scatter(x, y, c=labels, cmap='viridis')]. *)
Variable plt_scatter : list (Q * Q) -> list PyValue -> string + unit.

Definition train_classification_model (data : list Row)
    : string + (InputDict -> Z -> Q) :=
  compare_and_finalize data.

Definition create_cluster_visualization (data : list Row)
    (clustering_model : InputDict -> Z) (save_path : string) : IO unit :=
  (let clustering_data := clustering_data data in
   let predicted_cluster :=
     map (predict_clustering clustering_model) clustering_data in
   let features_2d := pca_fit_transform clustering_data in
   lift (plt_scatter features_2d predicted_cluster) ;;;
   write_file save_path
     (ClusterPlot (combine features_2d predicted_cluster)
        (cluster_annotations features_2d predicted_cluster)))%io.

(** A successful [plot_model] leaves ['Feature Importance.png'] in the
    working directory. *)
Definition plot_model_feature (classification_model : Pipeline) : IO unit :=
  (lift (plot_model classification_model) ;;;
   write_file "Feature Importance.png"
     (FeatureImportancePlot classification_model))%io.

(** [train()], started with the global random generator in state [s]. *)
Definition train (s : RandomState) : IO unit :=
  fun fs =>
    let model_path := "models/phishing_url_detector" in
    let clustering_model_path := "models/threat_actor_profiler" in
    let plot_path := "models/feature_importance.png" in
    let cluster_plot_path := "models/threat_clusters.png" in
    if path_exists fs (model_path ++ ".pkl")
       && path_exists fs (clustering_model_path ++ ".pkl")
    then (inr tt, fs)
    else
      (let data := fst (generate_synthetic_data 1000 s) in
       makedirs "data" ;;;
       write_file "data/phishing_synthetic.csv" (Csv data) ;;;
       makedirs "models" ;;;
       classification_model <- lift (train_classification_model data) ;;
       clustering_model <-
         lift (train_clustering_model create_model_kmeans data) ;;
       save_model (CorpusClassifier classification_model) model_path ;;;
       save_model (Clusterer clustering_model) clustering_model_path ;;;
       plot_model_feature (CorpusClassifier classification_model) ;;;
       rename "Feature Importance.png" plot_path ;;;
       create_cluster_visualization data clustering_model cluster_plot_path)%io
      fs.
End Offline.

(** The paths [train] may create, replace or remove. *)
Definition train_paths : list string :=
  [ "data"; "data/phishing_synthetic.csv"; "models";
    "models/phishing_url_detector.pkl"; "models/threat_actor_profiler.pkl";
    "Feature Importance.png"; "models/feature_importance.png";
    "models/threat_clusters.png" ].

(** No directory has the name of a file [train] writes, and no file the name
    of a directory it makes. *)
Definition no_collision (fs : FileSystem) : bool :=
  forallb (fun p => match fs !! p with Some (File _) => false | _ => true end)
    ["data"; "models"]
  && forallb (fun p => match fs !! p with Some Dir => false | _ => true end)
       [ "data/phishing_synthetic.csv"; "models/phishing_url_detector.pkl";
         "models/threat_actor_profiler.pkl"; "Feature Importance.png";
         "models/feature_importance.png"; "models/threat_clusters.png" ].

(** A step leaves every path outside [paths] as it was. *)
Definition keeps {A} (paths : list string) (m : IO A) : Prop :=
  forall (fs : FileSystem) (p : string),
    p ∉ paths -> snd (m fs) !! p = fs !! p.

(** The working directory after the corpus is written and before the first
    estimator is fitted. *)
Definition before_fitting (data : list Row) (fs : FileSystem) : FileSystem :=
  <["models" := Dir]>
  (<["data/phishing_synthetic.csv" := File (Csv data)]>
  (<["data" := Dir]> fs)).

(** A classification fit that raises as a call of the clustering [setup]
    with a [target] argument does, and a fit that returns. *)
Definition fit_raises : list Row -> string + (InputDict -> Z -> Q) :=
  fun _ => inl "TypeError".
Definition fit_returns : list Row -> string + (InputDict -> Z -> Q) :=
  fun _ => inr (fun _ _ => 0.9%Q).

(** ** app.py: loading the artifacts and the page *)

Record Assets := mkAssets {
  as_classification_model : option Pipeline;
  as_clustering_model : option Pipeline;
  as_feature_plot : option string;
  as_cluster_plot : option string
}.

(** [if os.path.exists(path + '.pkl'): model = load_model(path)], the
    variable being [None] before. *)
Definition load_if_exists (fs : FileSystem) (path : string)
    : string + option Pipeline :=
  if path_exists fs (path ++ ".pkl")
  then match load_model fs path with
       | inl e => inl e
       | inr pipeline => inr (Some pipeline)
       end
  else inr None.

(** The body of [load_assets()]. *)
Definition load_assets (fs : FileSystem) : string + Assets :=
  let model_path := "models/phishing_url_detector" in
  let clustering_model_path := "models/threat_actor_profiler" in
  let plot_path := "models/feature_importance.png" in
  let cluster_plot_path := "models/threat_clusters.png" in
  match load_if_exists fs model_path with
  | inl e => inl e
  | inr classification_model =>
      match load_if_exists fs clustering_model_path with
      | inl e => inl e
      | inr clustering_model =>
          let feature_plot :=
            if path_exists fs plot_path then Some plot_path else None in
          let cluster_plot :=
            if path_exists fs cluster_plot_path then Some cluster_plot_path
            else None in
          inr (mkAssets classification_model clustering_model
                 feature_plot cluster_plot)
      end
  end.

(** [@st.cache_resource] around [load_assets]: the value the body returns is
    kept for the life of the server process and handed to every later run of
    the script, which does not look at the files again; a call that raises
    leaves nothing behind.  [cache] is what the process holds, and the
    result comes with what it holds afterwards. *)
Definition cached_load_assets (cache : option Assets) (fs : FileSystem)
    : (string + Assets) * option Assets :=
  match cache with
  | Some assets => (inr assets, cache)
  | None =>
      match load_assets fs with
      | inl e => (inl e, None)
      | inr assets => (inr assets, Some assets)
      end
  end.

(** [threat_colors.get(color, ...)]. *)
Definition threat_colors : gmap string string :=
  <["red" := "🔴"]> (<["blue" := "🔵"]> (<["green" := "🟢"]> ∅)).

Definition threat_level_icon (threat_profile : Profile) : string :=
  default "⚪" (threat_colors !! color threat_profile).

(** What the second tab shows. *)
Inductive Tab2View :=
| ProfileView (threat_profile : Profile) (cluster_id : option PyValue) (icon : string)
| NoAttributionRequired
| AttributionUnavailable.

Section Page.
Variable Prescription : Type.
Variable generate_prescription : string -> InputDict -> string + Prescription.
(** [bool(prescription)], [prescription.get("recommended_actions", [])] and
    [prescription.get("communication_draft", "")]. *)
Variable truthy : Prescription -> bool.
Variable recommended_actions : Prescription -> list string.
Variable communication_draft : Prescription -> string.

(** [if is_malicious and threat_profile: ... elif not is_malicious: ...
    else: ...]; a profile is a dictionary of six keys, hence truthy. *)
Definition tab2 (a : Analysis Prescription) : Tab2View :=
  match an_is_malicious a, an_threat_profile a with
  | true, Some threat_profile =>
      ProfileView threat_profile (an_cluster_id a) (threat_level_icon threat_profile)
  | false, _ => NoAttributionRequired
  | true, None => AttributionUnavailable
  end.

(** What the fourth tab shows. *)
Inductive Tab4View :=
| PlanView (prescription : Prescription) (actions : list string) (draft : string)
| NoPlanInfo (msg : string).

(** [for i, action in enumerate(actions, 1): f"**{i}.** {action}"]. *)
Definition numbered_actions (actions : list string) : list string :=
  map (fun ia : nat * string =>
         ("**" ++ pretty (S (fst ia)) ++ ".** " ++ snd ia)%string)
      (enumerate actions).

Definition tab4 (a : Analysis Prescription) : Tab4View :=
  match an_prescription a with
  | Some prescription =>
      if truthy prescription
      then PlanView prescription
             (numbered_actions (recommended_actions prescription))
             (communication_draft prescription)
      else NoPlanInfo
             "No prescriptive plan was generated because the URL was classified as benign."
  | None =>
      NoPlanInfo
        "No prescriptive plan was generated because the URL was classified as benign."
  end.

(** How a run of the script ends. *)
Inductive Page :=
| LoadRaised (exception : string)
| Stopped (error : string)
| Waiting (info : string) (feature_plot cluster_plot : option string)
| PredictRaised
| Analyzed (run : Run (Analysis Prescription)) (second : Tab2View) (fourth : Tab4View).

(** The analysis branch with the two loaded pipelines.  A predict call is
    taken to raise on a pipeline of another kind than the one it is meant
    for (a classifier fitted with the [threat_actor] column misses that
    column in the form's frame).  [predict_clustering] is only called after
    a malicious verdict: after a benign one the clustering pipeline plays no
    part, and the run is that of [analyze] with any clustering model. *)
Definition page_analysis (classification_model clustering_model : Pipeline)
    (form_values : FormValues) (genai_provider : string) : Page :=
  match classification_model with
  | FeatureClassifier cm =>
      match clustering_model with
      | Clusterer km =>
          let run := analyze cm km generate_prescription form_values genai_provider in
          Analyzed run (tab2 (fst run)) (tab4 (fst run))
      | _ =>
          if prediction_label (predict_model cm (input_dict form_values)) =? 1
          then PredictRaised
          else
            let run := analyze cm (fun _ => 0) generate_prescription
                         form_values genai_provider in
            Analyzed run (tab2 (fst run)) (tab4 (fst run))
      end
  | _ => PredictRaised
  end.

(** One run of the script in a server process that holds [cache]: how the
    page ends, and what the process holds afterwards.  A loaded pipeline is
    truthy. *)
Definition page (cache : option Assets) (fs : FileSystem) (submitted : bool)
    (form_values : FormValues) (genai_provider : string) : Page * option Assets :=
  match cached_load_assets cache fs with
  | (inl e, cache') => (LoadRaised e, cache')
  | (inr assets, cache') =>
      (match as_classification_model assets, as_clustering_model assets with
       | Some classification_model, Some clustering_model =>
           if negb submitted then
             Waiting "Please provide the URL features in the sidebar and click 'Analyze' to begin."
               (as_feature_plot assets) (as_cluster_plot assets)
           else
             page_analysis classification_model clustering_model
               form_values genai_provider
       | _, _ =>
           Stopped "Models not found. Please wait for the initial training to complete, or check the container logs with `make logs` if the error persists."
       end, cache')
  end.
End Page.

(** * Properties *)

(** ** Feature vectors *)

Lemma get_set_field_same k x d : get_field k (set_field k x d) = x.
Proof. destruct d, k; reflexivity. Qed.

Lemma get_set_field_other j k x d :
  j <> k -> get_field j (set_field k x d) = get_field j d.
Proof. intros Hjk. destruct d, j, k; try reflexivity; contradiction. Qed.

(** Two vectors with the same value in every column are the same vector. *)
Lemma InputDict_ext d d' :
  (forall j, get_field j d = get_field j d') -> d = d'.
Proof.
  intros H. destruct d, d'.
  pose proof (H F_having_IP_Address). pose proof (H F_URL_Length).
  pose proof (H F_Shortining_Service). pose proof (H F_having_At_Symbol).
  pose proof (H F_double_slash_redirecting). pose proof (H F_Prefix_Suffix).
  pose proof (H F_having_Sub_Domain). pose proof (H F_SSLfinal_State).
  pose proof (H F_URL_of_Anchor). pose proof (H F_Links_in_tags).
  pose proof (H F_SFH). pose proof (H F_Abnormal_URL).
  pose proof (H F_has_political_keyword). pose proof (H F_sophistication_level).
  clear H. simpl in *. subst. reflexivity.
Qed.

(** A vector that differs from [d] in column [k] only is [d] with that
    column overwritten. *)
Lemma differ_only_in_set_field k d d' :
  (forall j, j <> k -> get_field j d' = get_field j d) ->
  d' = set_field k (get_field k d') d.
Proof.
  intros H. apply InputDict_ext. intros j.
  destruct (decide (j = k)) as [-> | Hjk].
  - now rewrite get_set_field_same.
  - rewrite get_set_field_other by assumption. now apply H.
Qed.

(** ** Risk scorer *)

Ltac forget_conditionals :=
  repeat match goal with
         | |- context [if ?b then ?p else ?q] =>
             generalize (if b then p else q); intro
         end.

(** Overwriting one column moves the total by that column's own factor. *)
Lemma risk_total_set_field k x d :
  risk_total (risk_scores (set_field k x d))
  - (if risky k x then weight k else 0)
  = risk_total (risk_scores d)
    - (if risky k (get_field k d) then weight k else 0).
Proof.
  destruct d, k; cbn; forget_conditionals; lia.
Qed.

Lemma risk_scores_nonnegative d :
  Forall (fun kv => 0 <= snd kv) (risk_scores d).
Proof.
  unfold risk_scores.
  repeat (apply Forall_cons; split; [cbn; case_match; lia |]).
  apply Forall_nil_2.
Qed.

Lemma weight_nonnegative k : 0 <= weight k.
Proof. destruct k; cbn; lia. Qed.

(** C5. Risk monotonicity: if two vectors differ in one column only, and
    that column holds a safe value in the first and a risky value in the
    second, the total of the second is at least the total of the first; and
    in the breakdown of any vector every factor contributes at least zero. *)
Theorem risk_monotone_and_nonnegative (k : Field) (safe risky_v w : InputDict) :
  (forall j, j <> k -> get_field j risky_v = get_field j safe) ->
  risky k (get_field k safe) = false ->
  risky k (get_field k risky_v) = true ->
  risk_total (risk_scores safe) <= risk_total (risk_scores risky_v) /\
  Forall (fun kv => 0 <= snd kv) (risk_scores w).
Proof.
  intros Hdiff Hsafe Hrisky. split; [| apply risk_scores_nonnegative].
  rewrite (differ_only_in_set_field k safe risky_v Hdiff).
  pose proof (risk_total_set_field k (get_field k risky_v) safe) as E.
  rewrite Hsafe, Hrisky in E.
  pose proof (weight_nonnegative k). lia.
Qed.

Lemma risk_monotone_and_nonnegative_witness :
  (forall j, j <> F_SSLfinal_State ->
     get_field j (set_field F_SSLfinal_State (-1) (input_dict clean_form))
     = get_field j (input_dict clean_form)) /\
  risky F_SSLfinal_State (get_field F_SSLfinal_State (input_dict clean_form)) = false /\
  risky F_SSLfinal_State
    (get_field F_SSLfinal_State
       (set_field F_SSLfinal_State (-1) (input_dict clean_form))) = true /\
  risk_total (risk_scores (input_dict clean_form))
  <= risk_total (risk_scores (set_field F_SSLfinal_State (-1) (input_dict clean_form))) /\
  Forall (fun kv => 0 <= snd kv) (risk_scores (input_dict default_form)).
Proof.
  assert (Hd : forall j, j <> F_SSLfinal_State ->
     get_field j (set_field F_SSLfinal_State (-1) (input_dict clean_form))
     = get_field j (input_dict clean_form)).
  { intros j Hj. destruct j; try reflexivity. contradiction. }
  split; [exact Hd |]. split; [reflexivity |]. split; [reflexivity |].
  exact (risk_monotone_and_nonnegative F_SSLfinal_State
           (input_dict clean_form)
           (set_field F_SSLfinal_State (-1) (input_dict clean_form))
           (input_dict default_form) Hd eq_refl eq_refl).
Defined.

(** ** Attribution lookup *)

(** The table binds exactly the ids 0, 1 and 2. *)
Lemma profiles_unbound_iff (cluster_id : PyValue) :
  THREAT_ACTOR_PROFILES !! cluster_id = None
  <-> cluster_id ∉ [PyInt 0; PyInt 1; PyInt 2].
Proof.
  unfold THREAT_ACTOR_PROFILES. split.
  - intros H Hin. apply list_elem_of_In in Hin. simpl in Hin.
    destruct Hin as [<- | [<- | [<- | []]]]; discriminate H.
  - intros Hout.
    rewrite !lookup_insert_ne, lookup_empty; [reflexivity | ..];
      intros <-; apply Hout; apply list_elem_of_In; cbn; tauto.
Qed.

(** A string is never a key of the table: the lookup of a PyCaret label
    gives the default. *)
Lemma profiles_string_unbound (s : string) :
  THREAT_ACTOR_PROFILES !! PyStr s = None.
Proof.
  apply profiles_unbound_iff. intros Hin. apply list_elem_of_In in Hin.
  cbn in Hin. intuition discriminate.
Qed.

Lemma threat_profile_of_label (clustering_model : InputDict -> Z) (d : InputDict) :
  threat_profile_of (predict_clustering clustering_model d) = unknown_profile.
Proof.
  unfold threat_profile_of, predict_clustering.
  now rewrite profiles_string_unbound.
Qed.

(** ** The analysis workflow, branch by branch *)

Section WorkflowFacts.
Variable classification_model : InputDict -> Q.
Variable clustering_model : InputDict -> Z.
Variable Prescription : Type.
Variable generate_prescription : string -> InputDict -> string + Prescription.
Variable form_values : FormValues.
Variable genai_provider : string.

Let d := input_dict form_values.
Let run := analyze classification_model clustering_model
             generate_prescription form_values genai_provider.

Lemma analyze_benign :
  prediction_label (predict_model classification_model d) <> 1 ->
  run = (mkAnalysis d (risk_scores d) (predict_model classification_model d)
           false None None None,
         [EvPredictModel d; EvStatusUpdate "complete"]).
Proof.
  intros H. subst run d. unfold analyze. cbn.
  destruct (Z.eqb_spec
              (prediction_label
                 (predict_model classification_model (input_dict form_values))) 1)
    as [E | _]; [contradiction | reflexivity].
Qed.

Lemma analyze_malicious_ok (p : Prescription) :
  prediction_label (predict_model classification_model d) = 1 ->
  generate_prescription genai_provider d = inr p ->
  run = (mkAnalysis d (risk_scores d) (predict_model classification_model d)
           true (Some (predict_clustering clustering_model d))
           (Some (threat_profile_of (predict_clustering clustering_model d))) (Some p),
         [EvPredictModel d; EvPredictClustering d;
          EvGeneratePrescription genai_provider d; EvStatusUpdate "complete"]).
Proof.
  intros H G. subst run d. unfold analyze. cbn. rewrite H, G. reflexivity.
Qed.

Lemma analyze_malicious_failed (e : string) :
  prediction_label (predict_model classification_model d) = 1 ->
  generate_prescription genai_provider d = inl e ->
  run = (mkAnalysis d (risk_scores d) (predict_model classification_model d)
           true (Some (predict_clustering clustering_model d))
           (Some (threat_profile_of (predict_clustering clustering_model d))) None,
         [EvPredictModel d; EvPredictClustering d;
          EvGeneratePrescription genai_provider d;
          EvStError ("Failed to generate prescription: " ++ e)%string;
          EvStatusUpdate "error"]).
Proof.
  intros H G. subst run d. unfold analyze. cbn. rewrite H, G. reflexivity.
Qed.

(** Whatever the branch, these four components are computed the same way. *)
Lemma analyze_common :
  an_input_dict (fst run) = d /\
  an_risk_scores (fst run) = risk_scores d /\
  an_prediction (fst run) = predict_model classification_model d /\
  an_is_malicious (fst run)
    = (prediction_label (predict_model classification_model d) =? 1).
Proof.
  destruct (decide (prediction_label (predict_model classification_model d) = 1))
    as [H | H].
  - destruct (generate_prescription genai_provider d) as [e | p] eqn:G.
    + rewrite (analyze_malicious_failed e H G). cbn. now rewrite H.
    + rewrite (analyze_malicious_ok p H G). cbn. now rewrite H.
  - rewrite (analyze_benign H). cbn.
    destruct (Z.eqb_spec (prediction_label (predict_model classification_model d)) 1);
      [contradiction | auto].
Qed.
End WorkflowFacts.

(** C7. Attribution fallback: a cluster id without an entry in the profile
    table resolves to the unknown profile; the lookup is a total function,
    and a malicious analysis whose clustering model answers such an id
    completes with that profile. *)
Theorem attribution_fallback
    (classification_model : InputDict -> Q) (clustering_model : InputDict -> Z)
    (Prescription : Type)
    (generate_prescription : string -> InputDict -> string + Prescription)
    (form_values : FormValues) (genai_provider : string) (cluster_id : PyValue) :
  THREAT_ACTOR_PROFILES !! cluster_id = None ->
  threat_profile_of cluster_id = unknown_profile /\
  (predict_clustering clustering_model (input_dict form_values) = cluster_id ->
   prediction_label (predict_model classification_model (input_dict form_values)) = 1 ->
   an_threat_profile
     (fst (analyze classification_model clustering_model generate_prescription
             form_values genai_provider)) = Some unknown_profile).
Proof.
  intros Hunbound.
  assert (Hp : threat_profile_of cluster_id = unknown_profile).
  { unfold threat_profile_of. now rewrite Hunbound. }
  split; [exact Hp |]. intros Hc Hmal.
  destruct (generate_prescription genai_provider (input_dict form_values))
    as [e | p] eqn:G.
  - rewrite (analyze_malicious_failed _ _ _ _ _ _ e Hmal G). cbn.
    now rewrite Hc, Hp.
  - rewrite (analyze_malicious_ok _ _ _ _ _ _ p Hmal G). cbn.
    now rewrite Hc, Hp.
Qed.

Lemma attribution_fallback_witness :
  THREAT_ACTOR_PROFILES !! PyStr "Cluster 7" = None /\
  threat_profile_of (PyStr "Cluster 7") = unknown_profile /\
  (predict_clustering (constant_cluster 7) (input_dict default_form)
     = PyStr "Cluster 7" ->
   prediction_label
     (predict_model mostly_malicious_model (input_dict default_form)) = 1 ->
   an_threat_profile
     (fst (analyze mostly_malicious_model (constant_cluster 7) working_provider
             default_form "Gemini")) = Some unknown_profile).
Proof.
  split; [reflexivity |].
  exact (attribution_fallback mostly_malicious_model (constant_cluster 7) unit
           working_provider default_form "Gemini" (PyStr "Cluster 7") eq_refl).
Defined.

(** C9. Benign verdict: when the classifier's label is not 1, the workflow
    calls the classifier and nothing else (no cluster prediction, no
    prescription request), and the cluster id, the threat profile and the
    prescription are all absent. *)
Theorem benign_skips_attribution
    (classification_model : InputDict -> Q) (clustering_model : InputDict -> Z)
    (Prescription : Type)
    (generate_prescription : string -> InputDict -> string + Prescription)
    (form_values : FormValues) (genai_provider : string) :
  prediction_label (predict_model classification_model (input_dict form_values)) <> 1 ->
  let run := analyze classification_model clustering_model generate_prescription
               form_values genai_provider in
  an_is_malicious (fst run) = false /\
  an_cluster_id (fst run) = None /\
  an_threat_profile (fst run) = None /\
  an_prescription (fst run) = None /\
  snd run = [EvPredictModel (input_dict form_values); EvStatusUpdate "complete"] /\
  Forall (fun e => is_clustering_call e = false /\ is_prescription_call e = false)
    (snd run).
Proof.
  intros H run. subst run. rewrite (analyze_benign _ _ _ _ _ _ H). cbn.
  repeat split; repeat constructor.
Qed.

Lemma benign_skips_attribution_witness :
  prediction_label (predict_model mostly_benign_model (input_dict clean_form)) <> 1 /\
  let run := analyze mostly_benign_model (constant_cluster 0) working_provider
               clean_form "OpenAI" in
  an_is_malicious (fst run) = false /\
  an_cluster_id (fst run) = None /\
  an_threat_profile (fst run) = None /\
  an_prescription (fst run) = None /\
  snd run = [EvPredictModel (input_dict clean_form); EvStatusUpdate "complete"] /\
  Forall (fun e => is_clustering_call e = false /\ is_prescription_call e = false)
    (snd run).
Proof.
  assert (H : prediction_label
                (predict_model mostly_benign_model (input_dict clean_form)) <> 1)
    by (vm_compute; discriminate).
  split; [exact H |].
  exact (benign_skips_attribution mostly_benign_model (constant_cluster 0) unit
           working_provider clean_form "OpenAI" H).
Defined.

(** C6. Prescription failure: for a malicious verdict, if
    [generate_prescription] raises [e], the analysis still carries the
    prediction, the cluster id, the threat profile and the risk breakdown,
    with the values they have when the call succeeds or fails in any other
    way; the prescription alone is absent, and the reason is reported through
    [st.error]. *)
Theorem prescription_failure_degrades_only_prescription
    (classification_model : InputDict -> Q) (clustering_model : InputDict -> Z)
    (Prescription : Type)
    (generate_prescription other_provider : string -> InputDict -> string + Prescription)
    (form_values : FormValues) (genai_provider : string) (e : string) :
  prediction_label (predict_model classification_model (input_dict form_values)) = 1 ->
  generate_prescription genai_provider (input_dict form_values) = inl e ->
  let d := input_dict form_values in
  let run := analyze classification_model clustering_model generate_prescription
               form_values genai_provider in
  let other := analyze classification_model clustering_model other_provider
                 form_values genai_provider in
  an_prescription (fst run) = None /\
  In (EvStError ("Failed to generate prescription: " ++ e)%string) (snd run) /\
  an_prediction (fst run) = predict_model classification_model d /\
  an_is_malicious (fst run) = true /\
  an_cluster_id (fst run) = Some (predict_clustering clustering_model d) /\
  an_threat_profile (fst run)
    = Some (threat_profile_of (predict_clustering clustering_model d)) /\
  an_risk_scores (fst run) = risk_scores d /\
  an_prediction (fst run) = an_prediction (fst other) /\
  an_is_malicious (fst run) = an_is_malicious (fst other) /\
  an_cluster_id (fst run) = an_cluster_id (fst other) /\
  an_threat_profile (fst run) = an_threat_profile (fst other) /\
  an_risk_scores (fst run) = an_risk_scores (fst other).
Proof.
  intros Hmal Hfail d run other. subst run other d.
  rewrite (analyze_malicious_failed _ _ _ _ _ _ e Hmal Hfail).
  destruct (other_provider genai_provider (input_dict form_values))
    as [e' | p] eqn:G.
  - rewrite (analyze_malicious_failed _ _ _ _ _ _ e' Hmal G). cbn.
    repeat split; auto 10.
  - rewrite (analyze_malicious_ok _ _ _ _ _ _ p Hmal G). cbn.
    repeat split; auto 10.
Qed.

Lemma prescription_failure_degrades_only_prescription_witness :
  prediction_label
    (predict_model mostly_malicious_model (input_dict default_form)) = 1 /\
  failing_provider "Grok" (input_dict default_form) = inl "API quota exceeded" /\
  let d := input_dict default_form in
  let run := analyze mostly_malicious_model (constant_cluster 1) failing_provider
               default_form "Grok" in
  let other := analyze mostly_malicious_model (constant_cluster 1) working_provider
                 default_form "Grok" in
  an_prescription (fst run) = None /\
  In (EvStError ("Failed to generate prescription: " ++ "API quota exceeded")%string)
    (snd run) /\
  an_prediction (fst run) = predict_model mostly_malicious_model d /\
  an_is_malicious (fst run) = true /\
  an_cluster_id (fst run) = Some (predict_clustering (constant_cluster 1) d) /\
  an_threat_profile (fst run)
    = Some (threat_profile_of (predict_clustering (constant_cluster 1) d)) /\
  an_risk_scores (fst run) = risk_scores d /\
  an_prediction (fst run) = an_prediction (fst other) /\
  an_is_malicious (fst run) = an_is_malicious (fst other) /\
  an_cluster_id (fst run) = an_cluster_id (fst other) /\
  an_threat_profile (fst run) = an_threat_profile (fst other) /\
  an_risk_scores (fst run) = an_risk_scores (fst other).
Proof.
  split; [reflexivity |]. split; [reflexivity |].
  exact (prescription_failure_degrades_only_prescription
           mostly_malicious_model (constant_cluster 1) unit
           failing_provider working_provider default_form "Grok"
           "API quota exceeded" eq_refl eq_refl).
Defined.

(** ** Model inputs *)

Lemma input_dict_fixed_columns form_values : fixed_columns (input_dict form_values).
Proof. repeat split. Qed.

Lemma analyze_log_inputs
    (classification_model : InputDict -> Q) (clustering_model : InputDict -> Z)
    (Prescription : Type)
    (generate_prescription : string -> InputDict -> string + Prescription)
    (form_values : FormValues) (genai_provider : string) :
  let run := analyze classification_model clustering_model generate_prescription
               form_values genai_provider in
  Forall (fun e => forall d, model_input e = Some d -> d = input_dict form_values)
    (snd run) /\
  estimator_inputs (snd run) =
    if an_is_malicious (fst run)
    then [input_dict form_values; input_dict form_values]
    else [input_dict form_values].
Proof.
  intros run. subst run.
  destruct (decide (prediction_label
                      (predict_model classification_model (input_dict form_values)) = 1))
    as [H | H].
  - destruct (generate_prescription genai_provider (input_dict form_values))
      as [e | p] eqn:G.
    + rewrite (analyze_malicious_failed _ _ _ _ _ _ e H G). cbn.
      split; [| reflexivity].
      repeat (apply Forall_cons; split; [cbn; congruence |]). apply Forall_nil_2.
    + rewrite (analyze_malicious_ok _ _ _ _ _ _ p H G). cbn.
      split; [| reflexivity].
      repeat (apply Forall_cons; split; [cbn; congruence |]). apply Forall_nil_2.
  - rewrite (analyze_benign _ _ _ _ _ _ H). cbn.
    split; [| reflexivity].
    repeat (apply Forall_cons; split; [cbn; congruence |]). apply Forall_nil_2.
Qed.

(** C10. Fixed columns: every vector the workflow hands to the classifier,
    the clustering model or the prescription module, and the vector the risk
    breakdown is computed from, has [double_slash_redirecting = -1] and
    [URL_of_Anchor = Links_in_tags = SFH = 0]; two requests with the same ten
    form values give the estimators the same inputs and have the same risk
    breakdown, whatever the provider chosen and whatever it answers. *)
Theorem form_determines_model_inputs
    (classification_model : InputDict -> Q) (clustering_model : InputDict -> Z)
    (Prescription : Type)
    (generate_prescription1 generate_prescription2
       : string -> InputDict -> string + Prescription)
    (form_values : FormValues) (genai_provider1 genai_provider2 : string) :
  let run1 := analyze classification_model clustering_model generate_prescription1
                form_values genai_provider1 in
  let run2 := analyze classification_model clustering_model generate_prescription2
                form_values genai_provider2 in
  Forall (fun e => forall d, model_input e = Some d -> fixed_columns d) (snd run1) /\
  fixed_columns (an_input_dict (fst run1)) /\
  an_risk_scores (fst run1) = risk_scores (an_input_dict (fst run1)) /\
  estimator_inputs (snd run1) = estimator_inputs (snd run2) /\
  an_input_dict (fst run1) = an_input_dict (fst run2) /\
  an_risk_scores (fst run1) = an_risk_scores (fst run2).
Proof.
  intros run1 run2.
  destruct (analyze_common classification_model clustering_model Prescription
              generate_prescription1 form_values genai_provider1)
    as (Hd1 & Hr1 & _ & Hm1).
  destruct (analyze_common classification_model clustering_model Prescription
              generate_prescription2 form_values genai_provider2)
    as (Hd2 & Hr2 & _ & Hm2).
  destruct (analyze_log_inputs classification_model clustering_model Prescription
              generate_prescription1 form_values genai_provider1) as [Hl1 He1].
  destruct (analyze_log_inputs classification_model clustering_model Prescription
              generate_prescription2 form_values genai_provider2) as [_ He2].
  fold run1 in Hd1, Hr1, Hm1, Hl1, He1. fold run2 in Hd2, Hr2, Hm2, He2.
  repeat split.
  - eapply Forall_impl; [exact Hl1 |]. intros e He d' Hd'.
    rewrite (He d' Hd'). apply input_dict_fixed_columns.
  - rewrite Hd1. apply input_dict_fixed_columns.
  - rewrite Hd1. apply input_dict_fixed_columns.
  - rewrite Hd1. apply input_dict_fixed_columns.
  - rewrite Hd1. apply input_dict_fixed_columns.
  - now rewrite Hr1, Hd1.
  - rewrite He1, He2, Hm1, Hm2. reflexivity.
  - now rewrite Hd1, Hd2.
  - now rewrite Hr1, Hr2.
Qed.

(** ** Classifier confidence *)

Lemma rint_floor (q : Q) : Qfloor q <= rint q <= Qfloor q + 1.
Proof.
  unfold rint.
  destruct (Qcompare _ _); [destruct (Z.even _) | |]; lia.
Qed.

(** Rounding never goes below an integer the number is at least. *)
Lemma rint_lower (z : Z) (q : Q) : (inject_Z z <= q)%Q -> z <= rint q.
Proof.
  intros H. apply Qfloor_resp_le in H. rewrite Qfloor_Z in H.
  pose proof (rint_floor q). lia.
Qed.

(** Rounding moves a number by at most one half. *)
Lemma rint_close (q : Q) : (Qabs (inject_Z (rint q) - q) <= 1 # 2)%Q.
Proof.
  apply Qabs_Qle_condition.
  pose proof (Qfloor_le q) as Hlo. pose proof (Qlt_floor q) as Hhi.
  rewrite inject_Z_plus in Hhi. change (inject_Z 1) with 1%Q in Hhi.
  unfold rint.
  destruct (Qcompare (q - inject_Z (Qfloor q)) (1 # 2)) eqn:E.
  - apply Qeq_alt in E.
    destruct (Z.even (Qfloor q));
      [| rewrite inject_Z_plus; change (inject_Z 1) with 1%Q]; split; lra.
  - apply Qlt_alt in E. split; lra.
  - apply Qgt_alt in E.
    rewrite inject_Z_plus. change (inject_Z 1) with 1%Q. split; lra.
Qed.

(** Rounding leaves an integer where it is. *)
Lemma rint_integer (q : Q) (k : Z) : (q == inject_Z k)%Q -> rint q = k.
Proof.
  intros E. unfold rint.
  assert (F : Qfloor q = k) by (rewrite E; apply Qfloor_Z).
  rewrite F.
  assert (L : Qcompare (q - inject_Z k) (1 # 2) = Lt).
  { apply Qlt_alt. rewrite E.
    assert (Z0 : (inject_Z k - inject_Z k == 0)%Q) by ring.
    rewrite Z0. reflexivity. }
  now rewrite L.
Qed.

Lemma round4_four_decimals (q : Q) (k : Z) :
  (q == inject_Z k / 10000)%Q -> (round4 q == q)%Q.
Proof.
  intros E. unfold round4.
  assert (R : rint (q * 10000) = k).
  { apply rint_integer. rewrite E. field. }
  rewrite R. now rewrite E.
Qed.

Lemma round4_at_least_half (q : Q) : (1 # 2 <= q)%Q -> (1 # 2 <= round4 q)%Q.
Proof.
  intros H. unfold round4.
  apply Qle_shift_div_l; [reflexivity |].
  assert (H5 : (inject_Z 5000 <= q * 10000)%Q).
  { change (inject_Z 5000) with 5000%Q. lra. }
  apply rint_lower in H5. rewrite Zle_Qle in H5.
  change (inject_Z 5000) with 5000%Q in H5. lra.
Qed.

Lemma round4_close (q : Q) : (Qabs (round4 q - q) <= 1 # 20000)%Q.
Proof.
  pose proof (rint_close (q * 10000)) as H.
  apply Qabs_Qle_condition in H. apply Qabs_Qle_condition.
  unfold round4.
  set (r := inject_Z (rint (q * 10000))) in *.
  assert (E : (r / 10000 == r * (1 # 10000))%Q) by (unfold Qdiv; reflexivity).
  rewrite E. split; lra.
Qed.

(** The label is the class with the larger probability, and the score is
    that class's probability rounded to four decimals. *)
Lemma predict_model_score (classification_model : InputDict -> Q)
    (input_data : InputDict) :
  let prediction := predict_model classification_model input_data in
  (prediction_label prediction = 0 \/ prediction_label prediction = 1) /\
  prediction_score prediction
    = round4 (class_probability classification_model input_data
                (prediction_label prediction)) /\
  (1 # 2 <= class_probability classification_model input_data
              (prediction_label prediction))%Q.
Proof.
  unfold predict_model, class_probability.
  destruct (Qle_bool (classification_model input_data)
              (1 - classification_model input_data)) eqn:E; cbn.
  - apply Qle_bool_iff in E. split; [now left |]. split; [reflexivity | lra].
  - assert (N : ~ (classification_model input_data
                   <= 1 - classification_model input_data)%Q).
    { intros H. apply Qle_bool_iff in H. congruence. }
    split; [now right |]. split; [reflexivity | lra].
Qed.

(** C4. Classifier confidence: for every fitted classifier and every
    feature vector, [predict_model] answers label 0 or 1 and a score that is
    the probability the classifier gives to the label it predicts, at the
    four decimals PyCaret reports: equal to it when it has no more than four
    decimals, and its rounding, within 0.00005 of it, otherwise.  The score
    is at least 0.5 for a benign prediction as well as for a malicious one,
    and for a benign prediction it is the probability of class 0 while the
    positive-class probability is at most 0.5. *)
Theorem confidence_is_probability_of_predicted_label
    (classification_model : InputDict -> Q) (input_data : InputDict) :
  let prediction := predict_model classification_model input_data in
  let probability :=
    class_probability classification_model input_data
      (prediction_label prediction) in
  (prediction_label prediction = 0 \/ prediction_label prediction = 1) /\
  prediction_score prediction = round4 probability /\
  (forall k : Z, probability == inject_Z k / 10000 ->
                 prediction_score prediction == probability)%Q /\
  (Qabs (prediction_score prediction - probability) <= 1 # 20000)%Q /\
  (1 # 2 <= probability)%Q /\
  (1 # 2 <= prediction_score prediction)%Q /\
  (prediction_label prediction = 0 ->
   prediction_score prediction = round4 (1 - classification_model input_data) /\
   (classification_model input_data <= 1 # 2)%Q).
Proof.
  intros prediction probability.
  destruct (predict_model_score classification_model input_data)
    as (Hlabel & Hscore & Hhalf).
  fold prediction in Hlabel, Hscore, Hhalf. fold probability in Hscore, Hhalf.
  split; [exact Hlabel |]. split; [exact Hscore |].
  split; [intros k Hk; rewrite Hscore; now apply (round4_four_decimals _ k) |].
  split; [rewrite Hscore; apply round4_close |].
  split; [exact Hhalf |].
  split; [rewrite Hscore; now apply round4_at_least_half |].
  intros H0. subst probability. unfold class_probability in *.
  rewrite H0 in *. cbn in *. split; [exact Hscore | lra].
Qed.

(** ** Attribution stage: what the partition is fitted on *)

(** C2 (as stated) fails: on a corpus made of one benign row the frame given
    to k-means holds that row, while the malicious rows are none. *)
Lemma benign_rows_reach_the_fit : ~ fit_uses_malicious_rows_only.
Proof.
  intros H. specialize (H benign_only_corpus). discriminate H.
Qed.

(** C2 (amended). The partition is fitted over the feature columns of every
    row of the corpus, benign rows included: the frame given to k-means has
    one row per corpus row, in the same order, holding that row's fourteen
    features; the label and threat_actor columns are not part of it, so two
    corpora with the same features give the same fitted model. *)
Theorem clustering_fit_uses_all_rows
    (Fitted : Type) (create_model_kmeans : list InputDict -> Fitted)
    (data data' : list Row) :
  train_clustering_model create_model_kmeans data
    = create_model_kmeans (clustering_data data) /\
  length (clustering_data data) = length data /\
  (forall i, clustering_data data !! i = features <$> data !! i) /\
  Forall (fun r => features r ∈ clustering_data data) data /\
  (map features data = map features data' ->
   train_clustering_model create_model_kmeans data
     = train_clustering_model create_model_kmeans data').
Proof.
  unfold train_clustering_model, clustering_data.
  split; [reflexivity |]. split; [apply length_map |].
  split; [intros i; apply list_lookup_fmap |].
  split.
  - apply Forall_forall. intros r Hr.
    apply list_elem_of_In, in_map, list_elem_of_In, Hr.
  - intros E. now rewrite E.
Qed.

(** ** Attribution stage: the cluster to archetype binding *)

(** In a cluster whose members all carry the same archetype, that archetype
    is the majority as soon as the cluster has a member. *)
Lemma uniform_majority (rows : list Row) (a : Z) :
  rows <> [] ->
  Forall (fun r => threat_actor r = a) rows ->
  majority_archetype rows a.
Proof.
  intros Hne Hall.
  assert (E : count_rows (fun r => threat_actor r = a) rows = length rows).
  { unfold count_rows. clear Hne.
    induction Hall as [| r rows Hr _ IH]; [reflexivity |].
    rewrite filter_cons_True by exact Hr. cbn. now rewrite IH. }
  split.
  - rewrite E. destruct rows; [contradiction | cbn; lia].
  - intros b. rewrite E. unfold count_rows. apply length_filter.
Qed.

(** No archetype of the generator is called as the unknown profile is. *)
Lemma unknown_is_no_archetype (a : Z) :
  Some (name unknown_profile) <> archetype_name a.
Proof.
  unfold archetype_name.
  destruct (a =? 0); [discriminate |].
  destruct (a =? 1); [discriminate |].
  destruct (a =? 2); discriminate.
Qed.

(** C1 (defect of the code). No binding is learned: for a malicious
    request, whatever the corpus the partition was fitted on and whatever
    archetype [a] is the majority among the corpus rows of the request's
    cluster, the cluster id the workflow gets is PyCaret's label
    ['Cluster k'], the lookup in the fixed integer-keyed table misses, and
    the profile attributed is the unknown one, never that of [a].  Read with
    integer keys the table would not agree with the generator either: its
    entries 0 and 1 name the archetypes the generator numbers 1 and 0. *)
Theorem attribution_misses_majority_archetype
    (classification_model : InputDict -> Q) (kmeans : InputDict -> Z)
    (data : list Row) (Prescription : Type)
    (generate_prescription : string -> InputDict -> string + Prescription)
    (form_values : FormValues) (genai_provider : string) (a : Z) :
  prediction_label (predict_model classification_model (input_dict form_values)) = 1 ->
  majority_archetype
    (cluster_members kmeans data (kmeans (input_dict form_values))) a ->
  let run := analyze classification_model kmeans generate_prescription
               form_values genai_provider in
  an_cluster_id (fst run)
    = Some (PyStr ("Cluster " ++ pretty (kmeans (input_dict form_values)))) /\
  an_threat_profile (fst run) = Some unknown_profile /\
  Some (name unknown_profile) <> archetype_name a /\
  Some (name (threat_profile_of (PyInt 0))) = archetype_name 1 /\
  Some (name (threat_profile_of (PyInt 1))) = archetype_name 0 /\
  Some (name (threat_profile_of (PyInt 2))) = archetype_name 2.
Proof.
  intros Hmal _ run. subst run.
  assert (E : forall r : Run (Analysis Prescription),
            r = analyze classification_model kmeans generate_prescription
                  form_values genai_provider ->
            an_cluster_id (fst r)
              = Some (predict_clustering kmeans (input_dict form_values)) /\
            an_threat_profile (fst r)
              = Some (threat_profile_of
                        (predict_clustering kmeans (input_dict form_values)))).
  { intros r ->.
    destruct (generate_prescription genai_provider (input_dict form_values))
      as [e | p] eqn:G.
    - rewrite (analyze_malicious_failed _ _ _ _ _ _ e Hmal G). now cbn.
    - rewrite (analyze_malicious_ok _ _ _ _ _ _ p Hmal G). now cbn. }
  destruct (E _ eq_refl) as [Hid Hprofile].
  rewrite threat_profile_of_label in Hprofile.
  split; [exact Hid |]. split; [exact Hprofile |].
  split; [apply unknown_is_no_archetype |].
  repeat split.
Qed.

Lemma attribution_misses_majority_archetype_witness :
  prediction_label
    (predict_model mostly_malicious_model (input_dict default_form)) = 1 /\
  majority_archetype
    (cluster_members (constant_cluster 2) hacktivist_corpus
       (constant_cluster 2 (input_dict default_form))) 2 /\
  let run := analyze mostly_malicious_model (constant_cluster 2) working_provider
               default_form "Gemini" in
  an_cluster_id (fst run)
    = Some (PyStr ("Cluster " ++ pretty (constant_cluster 2 (input_dict default_form)))) /\
  an_threat_profile (fst run) = Some unknown_profile /\
  Some (name unknown_profile) <> archetype_name 2 /\
  Some (name (threat_profile_of (PyInt 0))) = archetype_name 1 /\
  Some (name (threat_profile_of (PyInt 1))) = archetype_name 0 /\
  Some (name (threat_profile_of (PyInt 2))) = archetype_name 2.
Proof.
  assert (Hmaj : majority_archetype
                   (cluster_members (constant_cluster 2) hacktivist_corpus
                      (constant_cluster 2 (input_dict default_form))) 2).
  { apply uniform_majority; [discriminate |]. repeat constructor. }
  split; [reflexivity |]. split; [exact Hmaj |].
  exact (attribution_misses_majority_archetype mostly_malicious_model
           (constant_cluster 2) hacktivist_corpus unit working_provider
           default_form "Gemini" 2 eq_refl Hmaj).
Defined.

(** ** Generator: sizes of the sampled frames *)

Lemma rbind_run {A B} (m : Rand A) (k : A -> Rand B) s :
  rbind m k s = k (fst (m s)) (snd (m s)).
Proof. unfold rbind. now destruct (m s). Qed.

Lemma choice_S a size p s :
  choice a (S size) p s =
    (fst (choice1 a p s) :: fst (choice a size p (snd (choice1 a p s))),
     snd (choice a size p (snd (choice1 a p s)))).
Proof. cbn [choice]. now rewrite !rbind_run. Qed.

Lemma sample_columns_cons a p profile size s :
  sample_columns ((a, p) :: profile) size s =
    (fst (choice a size p s)
       :: fst (sample_columns profile size (snd (choice a size p s))),
     snd (sample_columns profile size (snd (choice a size p s)))).
Proof. cbn [sample_columns]. now rewrite !rbind_run. Qed.

Lemma choice_length a size p s : length (fst (choice a size p s)) = size.
Proof.
  revert s. induction size as [| size IH]; intros s; [reflexivity |].
  rewrite choice_S. cbn. now rewrite IH.
Qed.

Lemma sample_columns_lengths profile size s :
  Forall (fun c => length c = size) (fst (sample_columns profile size s)).
Proof.
  revert s. induction profile as [| [a p] profile IH]; intros s.
  - constructor.
  - rewrite sample_columns_cons. cbn. constructor; [apply choice_length | apply IH].
Qed.

Lemma sample_columns_count profile size s :
  length (fst (sample_columns profile size s)) = length profile.
Proof.
  revert s. induction profile as [| [a p] profile IH]; intros s.
  - reflexivity.
  - rewrite sample_columns_cons. cbn. now rewrite IH.
Qed.

(** A frame built from a sampled profile has [size] rows. *)
Lemma DataFrame_length profile size s :
  profile <> [] ->
  length (DataFrame (fst (sample_columns profile size s))) = size.
Proof.
  intros Hne. unfold DataFrame. rewrite length_map, length_seq.
  pose proof (sample_columns_lengths profile size s) as Hl.
  pose proof (sample_columns_count profile size s) as Hn.
  destruct (fst (sample_columns profile size s)) as [| c cs]; cbn in *.
  - destruct profile; [contradiction | discriminate].
  - now inversion Hl.
Qed.

(** ** Generator: the shuffle keeps every row *)

Lemma swap_Permutation {A} (i j : nat) (x : list A) : swap i j x ≡ₚ x.
Proof.
  unfold swap.
  destruct (x !! i) as [xi |] eqn:Hi; [| reflexivity].
  destruct (x !! j) as [xj |] eqn:Hj; [| reflexivity].
  now apply Permutation_insert_swap.
Qed.

Lemma shuffle_from_Permutation {A} (i : nat) (x : list A) s :
  fst (shuffle_from i x s) ≡ₚ x.
Proof.
  revert x s. induction i as [| i IH]; intros x s; [reflexivity |].
  cbn [shuffle_from]. rewrite rbind_run, IH. apply swap_Permutation.
Qed.

Lemma permutation_Permutation (n : nat) s : fst (permutation n s) ≡ₚ seq 0 n.
Proof. apply shuffle_from_Permutation. Qed.

Lemma take_rows_seq {A} (prefix df : list A) :
  take_rows (prefix ++ df)%list (seq (length prefix) (length df)) = df.
Proof.
  revert prefix. induction df as [| r df IH]; intros prefix; [reflexivity |].
  unfold take_rows in *. cbn [length seq omap list_omap].
  rewrite list_lookup_middle by reflexivity.
  f_equal. specialize (IH (prefix ++ [r])%list).
  rewrite <- app_assoc, length_app, Nat.add_1_r in IH. exact IH.
Qed.

Lemma take_rows_Permutation {A} (df : list A) (indices : list nat) :
  indices ≡ₚ seq 0 (length df) -> take_rows df indices ≡ₚ df.
Proof.
  intros E. unfold take_rows. rewrite E.
  exact (eq_ind _ (fun l => l ≡ₚ df) (reflexivity df) _
           (eq_sym (take_rows_seq [] df))).
Qed.

Lemma sample_frac_1_Permutation {A} (df : list A) s :
  fst (sample_frac_1 df s) ≡ₚ df.
Proof.
  unfold sample_frac_1. rewrite rbind_run. cbn [rret fst].
  apply take_rows_Permutation, permutation_Permutation.
Qed.

(** ** Generator: counting rows *)

Lemma count_rows_Permutation (P : Row -> Prop) `{forall r, Decision (P r)} df df' :
  df ≡ₚ df' -> count_rows P df = count_rows P df'.
Proof. intros E. unfold count_rows. now rewrite E. Qed.

Lemma count_rows_app (P : Row -> Prop) `{forall r, Decision (P r)} df df' :
  count_rows P (df ++ df')%list = (count_rows P df + count_rows P df')%nat.
Proof. unfold count_rows. now rewrite filter_app, length_app. Qed.

Lemma count_label_with_labels x l t df :
  count_rows (fun r => label r = x) (with_labels l t df) =
    if decide (l = x) then length df else 0%nat.
Proof.
  unfold count_rows, with_labels.
  destruct (decide (l = x)) as [E | E];
    induction df as [| f df IH]; try reflexivity; cbn [map].
  - rewrite filter_cons_True by exact E. cbn [length]. now rewrite IH.
  - rewrite filter_cons_False by exact E. exact IH.
Qed.

Lemma count_actor_with_labels x l t df :
  count_rows (fun r => threat_actor r = x) (with_labels l t df) =
    if decide (t = x) then length df else 0%nat.
Proof.
  unfold count_rows, with_labels.
  destruct (decide (t = x)) as [E | E];
    induction df as [| f df IH]; try reflexivity; cbn [map].
  - rewrite filter_cons_True by exact E. cbn [length]. now rewrite IH.
  - rewrite filter_cons_False by exact E. exact IH.
Qed.

(** The corpus is a reordering of the four labelled frames, whose sizes are
    fixed by the row count. *)
Lemma generate_synthetic_data_shape (num_samples : nat) (s : RandomState) :
  let num_phishing := (num_samples / 2)%nat in
  exists df1 df2 df3 df4 : list InputDict,
    length df1 = (num_phishing / 3)%nat /\
    length df2 = (num_phishing / 3)%nat /\
    length df3 = (num_phishing - num_phishing / 3 - num_phishing / 3)%nat /\
    length df4 = (num_samples - num_phishing)%nat /\
    fst (generate_synthetic_data num_samples s) ≡ₚ
      (with_labels 1 0 df1 ++ with_labels 1 1 df2 ++
       with_labels 1 2 df3 ++ with_labels 0 (-1) df4)%list.
Proof.
  intros num_phishing. unfold generate_synthetic_data. cbv zeta.
  rewrite !rbind_run. fold num_phishing.
  do 4 eexists.
  split; [| split; [| split; [| split]]].
  5: apply sample_frac_1_Permutation.
  all: apply DataFrame_length; discriminate.
Qed.

Lemma div2_div3_facts (n : nat) :
  let h := (n / 2)%nat in
  (h <= n - h <= h + 1)%nat /\
  (h - h / 3 - h / 3 = h / 3 + h mod 3)%nat /\
  (h / 3 + h / 3 + (h / 3 + h mod 3) = h)%nat /\
  (h + (n - h) = n)%nat /\
  (h mod 3 < 3)%nat.
Proof.
  intros h.
  pose proof (Nat.div_mod_eq n 2) as E2.
  pose proof (Nat.mod_upper_bound n 2 ltac:(lia)) as B2.
  pose proof (Nat.div_mod_eq h 3) as E3.
  pose proof (Nat.mod_upper_bound h 3 ltac:(lia)) as B3.
  fold h in E2. lia.
Qed.

(** C8. Class balance: for every row count [n] and every state of the random
    generator, the corpus has [n] rows, of which [n / 2] are malicious and
    [n - n / 2] benign (so the two halves differ by at most one row); every
    malicious row carries archetype 0, 1 or 2 and every benign row the
    sentinel -1; archetypes 0 and 1 get [(n / 2) / 3] rows each and archetype
    2 gets the same number plus the remainder [(n / 2) mod 3]. *)
Theorem generator_class_balance (num_samples : nat) (s : RandomState) :
  let corpus := fst (generate_synthetic_data num_samples s) in
  let num_phishing := (num_samples / 2)%nat in
  length corpus = num_samples /\
  count_rows (fun r => label r = 1) corpus = num_phishing /\
  count_rows (fun r => label r = 0) corpus = (num_samples - num_phishing)%nat /\
  (num_phishing <= num_samples - num_phishing <= num_phishing + 1)%nat /\
  count_rows (fun r => threat_actor r = 0) corpus = (num_phishing / 3)%nat /\
  count_rows (fun r => threat_actor r = 1) corpus = (num_phishing / 3)%nat /\
  count_rows (fun r => threat_actor r = 2) corpus
    = (num_phishing / 3 + num_phishing mod 3)%nat /\
  count_rows (fun r => threat_actor r = -1) corpus = (num_samples - num_phishing)%nat /\
  Forall (fun r => label r = 1 /\ threat_actor r ∈ [0; 1; 2] \/
                   label r = 0 /\ threat_actor r = -1) corpus.
Proof.
  intros corpus num_phishing.
  destruct (generate_synthetic_data_shape num_samples s)
    as (df1 & df2 & df3 & df4 & L1 & L2 & L3 & L4 & Hperm).
  fold corpus num_phishing in Hperm, L1, L2, L3, L4.
  destruct (div2_div3_facts num_samples) as (Hhalf & Hrem & Hsum & Htot & _).
  fold num_phishing in Hhalf, Hrem, Hsum, Htot.
  assert (Hcount : forall (P : Row -> Prop) `{forall r, Decision (P r)},
            count_rows P corpus =
              (count_rows P (with_labels 1 0 df1) + count_rows P (with_labels 1 1 df2)
               + count_rows P (with_labels 1 2 df3)
               + count_rows P (with_labels 0 (-1) df4))%nat).
  { intros P HP. rewrite (count_rows_Permutation P _ _ Hperm).
    rewrite !count_rows_app. lia. }
  split.
  { rewrite Hperm. rewrite !length_app. unfold with_labels.
    rewrite !length_map. lia. }
  split. { rewrite Hcount, !count_label_with_labels. repeat case_decide; lia. }
  split. { rewrite Hcount, !count_label_with_labels. repeat case_decide; lia. }
  split. { exact Hhalf. }
  split. { rewrite Hcount, !count_actor_with_labels. repeat case_decide; lia. }
  split. { rewrite Hcount, !count_actor_with_labels. repeat case_decide; lia. }
  split. { rewrite Hcount, !count_actor_with_labels. repeat case_decide; lia. }
  split. { rewrite Hcount, !count_actor_with_labels. repeat case_decide; lia. }
  rewrite Hperm. unfold with_labels.
  rewrite !Forall_app, !Forall_fmap.
  repeat split; apply Forall_forall; intros f _; cbn.
  1-3: left; split; [reflexivity | apply list_elem_of_In; cbn; tauto].
  right; split; reflexivity.
Qed.

(** ** Generator: reproducibility *)


(** ** Generator: sampled values stay in the column's domain *)

Lemma next_uint32_range s : 0 <= fst (next_uint32 s) < two32.
Proof. apply Z.mod_pos_bound. reflexivity. Qed.

Lemma random_sample_range s :
  (0 <= fst (random_sample s))%Q /\ (fst (random_sample s) < 1)%Q.
Proof.
  unfold random_sample. rewrite !rbind_run. cbn [rret fst].
  pose proof (next_uint32_range s) as Ha.
  pose proof (next_uint32_range (snd (next_uint32 s))) as Hb.
  set (a := fst (next_uint32 s)) in *.
  set (b := fst (next_uint32 (snd (next_uint32 s)))) in *.
  unfold two32 in Ha, Hb.
  assert (Ha' : 0 <= Z.shiftr a 5 < 2 ^ 27).
  { rewrite Z.shiftr_div_pow2 by lia. split.
    - apply Z.div_pos; lia.
    - apply Z.div_lt_upper_bound; lia. }
  assert (Hb' : 0 <= Z.shiftr b 6 < 2 ^ 26).
  { rewrite Z.shiftr_div_pow2 by lia. split.
    - apply Z.div_pos; lia.
    - apply Z.div_lt_upper_bound; lia. }
  set (k := Z.shiftr a 5 * 67108864 + Z.shiftr b 6).
  assert (Hk : 0 <= k < two53) by (unfold two53; subst k; lia).
  assert (H53 : (0 < inject_Z two53)%Q) by reflexivity.
  split.
  - apply Qle_shift_div_l; [exact H53 |]. rewrite Qmult_0_l.
    change 0%Q with (inject_Z 0). rewrite <- Zle_Qle. lia.
  - apply Qlt_shift_div_r; [exact H53 |]. rewrite Qmult_1_l.
    rewrite <- Zlt_Qlt. lia.
Qed.

Lemma searchsorted_right_bound (cdf : list Q) (u : Q) :
  cdf <> [] -> (u < List.last cdf 1)%Q ->
  (searchsorted_right cdf u < length cdf)%nat.
Proof.
  induction cdf as [| c cdf IH]; intros Hne Hlast; [contradiction |].
  cbn [searchsorted_right length].
  destruct (Qle_bool c u) eqn:E; [| lia].
  destruct cdf as [| c' cdf'].
  - cbn in Hlast. apply Qle_bool_iff in E. lra.
  - assert ((searchsorted_right (c' :: cdf') u < length (c' :: cdf'))%nat).
    { apply IH; [discriminate | exact Hlast]. }
    lia.
Qed.

Lemma profiles_well_formed :
  Forall well_formed_entry
    (state_sponsored_profile ++ cybercrime_profile ++
     hacktivist_profile ++ benign_profile)%list.
Proof.
  repeat (apply Forall_cons; split;
          [split; [reflexivity | split; [discriminate | reflexivity]] |]).
  apply Forall_nil_2.
Qed.

Lemma choice1_in_domain a p s :
  well_formed_entry (a, p) -> fst (choice1 a p s) ∈ a.
Proof.
  intros (Hlen & Hne & Hsum). cbn [fst snd] in *.
  unfold choice1. rewrite rbind_run. cbn [rret fst].
  destruct (random_sample_range s) as [_ Hu].
  apply list_elem_of_In, nth_In. rewrite Hlen.
  assert (Hcdf : length (cdf_of p) = length p).
  { unfold cdf_of. rewrite length_map. clear.
    generalize 0%Q. induction p as [| x p IH]; intros acc; cbn; [| rewrite IH];
      reflexivity. }
  rewrite <- Hcdf. apply searchsorted_right_bound.
  - intros E. rewrite E in Hcdf. destruct p; [contradiction | discriminate].
  - rewrite Hsum. exact Hu.
Qed.

(** * Further properties of the code *)

(** ** Encoding of the form *)

Ltac elem_of_cases H :=
  apply list_elem_of_In in H; cbn in H;
  repeat match type of H with
         | _ \/ _ => destruct H as [H | H]
         | False => destruct H
         end.

(** X1. Whatever the form holds, also a slider value outside its options,
    every column of the encoded vector lies in the value list the training
    profiles use for that column. *)
Theorem input_dict_in_domain (form_values : FormValues) (k : Field) :
  get_field k (input_dict form_values) ∈ column_domain k.
Proof.
  destruct form_values, k; cbn -[String.eqb];
    repeat match goal with
           | |- context [if ?b then _ else _] => destruct b
           end;
    apply list_elem_of_In; cbn; tauto.
Qed.

Lemma flag_encoding_injective (b1 b2 : bool) :
  (if b1 then 1 else -1) = (if b2 then 1 else -1) -> b1 = b2.
Proof. destruct b1, b2; intros H; congruence. Qed.

Lemma slider_encoding_injective (low mid high s1 s2 : string) :
  low <> mid -> s1 ∈ [low; mid; high] -> s2 ∈ [low; mid; high] ->
  low <> high -> mid <> high ->
  (if String.eqb s1 low then -1 else if String.eqb s1 mid then 0 else 1)
  = (if String.eqb s2 low then -1 else if String.eqb s2 mid then 0 else 1) ->
  s1 = s2.
Proof.
  intros Hlm H1 H2 Hlh Hmh.
  elem_of_cases H1; elem_of_cases H2; subst;
    repeat match goal with
           | |- context [String.eqb ?a ?b] => destruct (String.eqb_spec a b)
           end;
    intros E; congruence.
Qed.

(** X2. On forms whose sliders hold one of their options the encoding loses
    nothing: two such forms with the same feature vector are the same form. *)
Theorem input_dict_injective (f1 f2 : FormValues) :
  valid_form f1 -> valid_form f2 ->
  input_dict f1 = input_dict f2 -> f1 = f2.
Proof.
  intros (U1 & S1 & D1 & L1) (U2 & S2 & D2 & L2) E.
  destruct f1 as [u1 s1 d1 p1 i1 h1 a1 b1 k1 l1].
  destruct f2 as [u2 s2 d2 p2 i2 h2 a2 b2 k2 l2].
  cbn in *. injection E as Ei Eu Eh Ea Ep Ed Es Eb Ek El.
  apply flag_encoding_injective in Ei, Eh, Ea, Ep, Eb, Ek.
  apply (slider_encoding_injective "Short" "Normal" "Long") in Eu;
    [| discriminate | assumption | assumption | discriminate | discriminate].
  apply (slider_encoding_injective "None" "One" "Many") in Ed;
    [| discriminate | assumption | assumption | discriminate | discriminate].
  assert (S1' : s1 ∈ ["None"; "Suspicious"; "Trusted"])
    by (revert S1; rewrite !list_elem_of_In; cbn; tauto).
  assert (S2' : s2 ∈ ["None"; "Suspicious"; "Trusted"])
    by (revert S2; rewrite !list_elem_of_In; cbn; tauto).
  apply (slider_encoding_injective "None" "Suspicious" "Trusted") in Es;
    [| discriminate | assumption | assumption | discriminate | discriminate].
  apply (slider_encoding_injective "Low" "Medium" "High") in El;
    [| discriminate | assumption | assumption | discriminate | discriminate].
  congruence.
Qed.

Lemma default_form_valid : valid_form default_form.
Proof. repeat split; apply list_elem_of_In; cbn; tauto. Qed.

Lemma input_dict_injective_witness :
  valid_form default_form /\ valid_form (with_at_symbol false default_form) /\
  input_dict default_form = input_dict (with_at_symbol false default_form) /\
  default_form = with_at_symbol false default_form.
Proof.
  split; [exact default_form_valid |]. split; [exact default_form_valid |].
  split; [reflexivity |].
  exact (input_dict_injective default_form (with_at_symbol false default_form)
           default_form_valid default_form_valid eq_refl).
Defined.

(** ** Risk contributions *)

Lemma weighted_flags_total (b1 b2 b3 b4 b5 b6 b7 b8 b9 : bool) :
  let t := (if b1 then 25 else 0) + (if b2 then 20 else 0) + (if b3 then 15 else 0)
           + (if b4 then 15 else 0) + (if b5 then 10 else 0) + (if b6 then 10 else 0)
           + (if b7 then 5 else 0) + (if b8 then 10 else 0) + (if b9 then 15 else 0) in
  0 <= t <= 125 /\
  (t = 0 <-> b1 || b2 || b3 || b4 || b5 || b6 || b7 || b8 || b9 = false) /\
  (t = 125 <-> b1 && b2 && b3 && b4 && b5 && b6 && b7 && b8 && b9 = true).
Proof.
  destruct b1, b2, b3, b4, b5, b6, b7, b8, b9; cbn;
    (split; [lia | split; split; intros H; (reflexivity || discriminate H || lia)]).
Qed.

(** X3. The total of a breakdown lies between 0 and 125; it is 0 exactly
    when no factor's condition holds, and 125 exactly when all nine hold. *)
Theorem risk_total_bounds (d : InputDict) :
  0 <= risk_total (risk_scores d) <= 125 /\
  (risk_total (risk_scores d) = 0 <->
     forall k, risky k (get_field k d) = false) /\
  (risk_total (risk_scores d) = 125 <->
     forall k, unscored k = false -> risky k (get_field k d) = true).
Proof.
  destruct d as [a1 a2 a3 a4 a5 a6 a7 a8 a9 a10 a11 a12 a13 a14].
  pose proof (weighted_flags_total (a8 <? 1) (a12 =? 1) (a6 =? 1) (a3 =? 1)
                (a7 =? 1) (a2 =? 1) (a1 =? 1) (a13 =? 1) (a14 =? 1))
    as (Hb & H0 & H125).
  cbv zeta in Hb, H0, H125.
  assert (E : risk_total
                (risk_scores (mkInput a1 a2 a3 a4 a5 a6 a7 a8 a9 a10 a11 a12 a13 a14))
              = (if a8 <? 1 then 25 else 0) + (if a12 =? 1 then 20 else 0)
                + (if a6 =? 1 then 15 else 0) + (if a3 =? 1 then 15 else 0)
                + (if a7 =? 1 then 10 else 0) + (if a2 =? 1 then 10 else 0)
                + (if a1 =? 1 then 5 else 0) + (if a13 =? 1 then 10 else 0)
                + (if a14 =? 1 then 15 else 0)).
  { cbn. forget_conditionals. lia. }
  rewrite E. split; [exact Hb |]. split.
  - rewrite H0. split.
    + intros H k. apply orb_false_iff in H.
      repeat match type of H with
             | _ /\ _ => let H' := fresh in destruct H as [H H']
             | _ || _ = false => apply orb_false_iff in H
             end.
      destruct k; cbn; (assumption || reflexivity).
    + intros H.
      pose proof (H F_having_IP_Address). pose proof (H F_URL_Length).
      pose proof (H F_Shortining_Service). pose proof (H F_Prefix_Suffix).
      pose proof (H F_having_Sub_Domain). pose proof (H F_SSLfinal_State).
      pose proof (H F_Abnormal_URL). pose proof (H F_has_political_keyword).
      pose proof (H F_sophistication_level). cbn in *.
      repeat (apply orb_false_iff; split); assumption.
  - rewrite H125. split.
    + intros H k Hk.
      repeat match type of H with
             | _ /\ _ => let H' := fresh in destruct H as [H H']
             | _ && _ = true => apply andb_true_iff in H
             end.
      destruct k; cbn in *; (assumption || discriminate Hk).
    + intros H.
      pose proof (H F_having_IP_Address eq_refl). pose proof (H F_URL_Length eq_refl).
      pose proof (H F_Shortining_Service eq_refl). pose proof (H F_Prefix_Suffix eq_refl).
      pose proof (H F_having_Sub_Domain eq_refl). pose proof (H F_SSLfinal_State eq_refl).
      pose proof (H F_Abnormal_URL eq_refl). pose proof (H F_has_political_keyword eq_refl).
      pose proof (H F_sophistication_level eq_refl). cbn in *.
      repeat (apply andb_true_iff; split); assumption.
Qed.

(** X4. The five columns without a factor never move the breakdown:
    overwriting one of them leaves every contribution as it was, and so does
    ticking or clearing the '@' checkbox of the form. *)
Theorem risk_ignores_unscored_columns
    (k : Field) (x : Z) (d : InputDict) (b : bool) (form_values : FormValues) :
  unscored k = true ->
  risk_scores (set_field k x d) = risk_scores d /\
  risk_scores (input_dict (with_at_symbol b form_values))
    = risk_scores (input_dict form_values).
Proof.
  intros Hk. split; [| reflexivity].
  destruct d, k; try discriminate Hk; reflexivity.
Qed.

Lemma risk_ignores_unscored_columns_witness :
  unscored F_SFH = true /\
  risk_scores (set_field F_SFH 1 (input_dict default_form))
    = risk_scores (input_dict default_form) /\
  risk_scores (input_dict (with_at_symbol true default_form))
    = risk_scores (input_dict default_form).
Proof.
  split; [reflexivity |].
  exact (risk_ignores_unscored_columns F_SFH 1 (input_dict default_form) true
           default_form eq_refl).
Defined.

(** ** The analysis workflow: calls, status and tabs *)

Section WorkflowShape.
Variable classification_model : InputDict -> Q.
Variable clustering_model : InputDict -> Z.
Variable Prescription : Type.
Variable generate_prescription : string -> InputDict -> string + Prescription.
Variable form_values : FormValues.
Variable genai_provider : string.

Let d := input_dict form_values.
Let run := analyze classification_model clustering_model
             generate_prescription form_values genai_provider.

(** The three shapes a run can take. *)
Lemma analyze_cases :
  (an_is_malicious (fst run) = false /\
   run = (mkAnalysis d (risk_scores d) (predict_model classification_model d)
            false None None None,
          [EvPredictModel d; EvStatusUpdate "complete"])) \/
  (an_is_malicious (fst run) = true /\
   exists p, generate_prescription genai_provider d = inr p /\
   run = (mkAnalysis d (risk_scores d) (predict_model classification_model d)
            true (Some (predict_clustering clustering_model d))
            (Some (threat_profile_of (predict_clustering clustering_model d))) (Some p),
          [EvPredictModel d; EvPredictClustering d;
           EvGeneratePrescription genai_provider d; EvStatusUpdate "complete"])) \/
  (an_is_malicious (fst run) = true /\
   exists e, generate_prescription genai_provider d = inl e /\
   run = (mkAnalysis d (risk_scores d) (predict_model classification_model d)
            true (Some (predict_clustering clustering_model d))
            (Some (threat_profile_of (predict_clustering clustering_model d))) None,
          [EvPredictModel d; EvPredictClustering d;
           EvGeneratePrescription genai_provider d;
           EvStError ("Failed to generate prescription: " ++ e)%string;
           EvStatusUpdate "error"])).
Proof.
  destruct (decide (prediction_label (predict_model classification_model d) = 1))
    as [H | H].
  - destruct (generate_prescription genai_provider d) as [e | p] eqn:G.
    + right; right. subst run d.
      rewrite (analyze_malicious_failed _ _ _ _ _ _ e H G). eauto.
    + right; left. subst run d.
      rewrite (analyze_malicious_ok _ _ _ _ _ _ p H G). eauto.
  - left. subst run d. rewrite (analyze_benign _ _ _ _ _ _ H). eauto.
Qed.
End WorkflowShape.

(** X5. Every run asks the classifier exactly once, before anything else;
    it asks the clustering model and the generation module exactly once each
    when the verdict is malicious and never otherwise.  A failed generation
    call is not repeated. *)
Theorem analyze_calls_each_service_once
    (classification_model : InputDict -> Q) (clustering_model : InputDict -> Z)
    (Prescription : Type)
    (generate_prescription : string -> InputDict -> string + Prescription)
    (form_values : FormValues) (genai_provider : string) :
  let run := analyze classification_model clustering_model generate_prescription
               form_values genai_provider in
  let n := if an_is_malicious (fst run) then 1%nat else 0%nat in
  head (snd run) = Some (EvPredictModel (input_dict form_values)) /\
  count_events is_classifier_call (snd run) = 1%nat /\
  count_events is_clustering_call (snd run) = n /\
  count_events is_prescription_call (snd run) = n.
Proof.
  intros run n. subst n.
  destruct (analyze_cases classification_model clustering_model Prescription
              generate_prescription form_values genai_provider)
    as [[Hm E] | [[Hm (p & G & E)] | [Hm (e & G & E)]]];
    fold run in Hm, E; rewrite Hm, E; cbn; auto.
Qed.

(** X6. The status block ends in state "error" exactly when the verdict is
    malicious and the generation module raised, and in state "complete"
    otherwise; one error is reported in the first case and none in the
    second; the prescription is absent exactly for a benign verdict or a
    failed generation. *)
Theorem analyze_final_status
    (classification_model : InputDict -> Q) (clustering_model : InputDict -> Z)
    (Prescription : Type)
    (generate_prescription : string -> InputDict -> string + Prescription)
    (form_values : FormValues) (genai_provider : string) :
  let run := analyze classification_model clustering_model generate_prescription
               form_values genai_provider in
  let failed := an_is_malicious (fst run)
                && raised (generate_prescription genai_provider
                             (input_dict form_values)) in
  last (snd run) = Some (EvStatusUpdate (if failed then "error" else "complete")) /\
  count_events is_error_report (snd run) = (if failed then 1%nat else 0%nat) /\
  (an_prescription (fst run) = None <->
     an_is_malicious (fst run) = false \/ failed = true).
Proof.
  intros run failed. subst failed.
  destruct (analyze_cases classification_model clustering_model Prescription
              generate_prescription form_values genai_provider)
    as [[Hm E] | [[Hm (p & G & E)] | [Hm (e & G & E)]]];
    fold run in Hm, E; rewrite Hm, ?G, E; cbn;
    (split; [reflexivity | split; [reflexivity |]]); split; intros H; auto.
  - discriminate H.
  - destruct H as [H | H]; discriminate H.
Qed.

Lemma threat_level_icon_of (cluster_id : PyValue) :
  threat_level_icon (threat_profile_of cluster_id) =
    match cluster_id with
    | PyInt 0 => "🔴"
    | PyInt 1 => "🔵"
    | PyInt 2 => "🟢"
    | _ => "⚪"
    end.
Proof.
  assert (Hunbound : forall c, c ∉ [PyInt 0; PyInt 1; PyInt 2] ->
            threat_level_icon (threat_profile_of c) = "⚪").
  { intros c Hc. unfold threat_profile_of.
    now rewrite (proj2 (profiles_unbound_iff c) Hc). }
  destruct cluster_id as [[| [p | [p | p |] |] | p] | s];
    try reflexivity; apply Hunbound; intros Hin;
    apply list_elem_of_In in Hin; cbn in Hin; intuition discriminate.
Qed.

(** X7. The attribution tab of a run shows the resolved profile (with the
    icon of its colour, the white circle for the unknown profile) when the
    verdict is malicious and "no attribution required" when it is benign;
    its third branch, "attribution unavailable", is never taken. *)
Theorem attribution_tab_never_unavailable
    (classification_model : InputDict -> Q) (clustering_model : InputDict -> Z)
    (Prescription : Type)
    (generate_prescription : string -> InputDict -> string + Prescription)
    (form_values : FormValues) (genai_provider : string) :
  let a := fst (analyze classification_model clustering_model generate_prescription
                  form_values genai_provider) in
  let c := predict_clustering clustering_model (input_dict form_values) in
  tab2 Prescription a <> AttributionUnavailable /\
  tab2 Prescription a =
    (if an_is_malicious a
     then ProfileView (threat_profile_of c) (Some c)
            (match c with
             | PyInt 0 => "🔴"
             | PyInt 1 => "🔵"
             | PyInt 2 => "🟢"
             | _ => "⚪"
             end)
     else NoAttributionRequired).
Proof.
  intros a c. subst a c.
  destruct (analyze_cases classification_model clustering_model Prescription
              generate_prescription form_values genai_provider)
    as [[Hm E] | [[Hm (p & G & E)] | [Hm (e & G & E)]]];
    rewrite E in *; cbn; rewrite <- ?threat_level_icon_of; split;
    (discriminate || reflexivity).
Qed.

(** X8. The plan tab shows a plan only for a malicious verdict whose
    generation call returned a non-empty plan; in every other case,
    including a malicious verdict whose generation call raised, it shows the
    message that the URL was classified as benign. *)
Theorem plan_tab_message
    (classification_model : InputDict -> Q) (clustering_model : InputDict -> Z)
    (Prescription : Type)
    (generate_prescription : string -> InputDict -> string + Prescription)
    (truthy : Prescription -> bool)
    (recommended_actions : Prescription -> list string)
    (communication_draft : Prescription -> string)
    (form_values : FormValues) (genai_provider : string) :
  let a := fst (analyze classification_model clustering_model generate_prescription
                  form_values genai_provider) in
  let benign_message :=
    NoPlanInfo Prescription
      "No prescriptive plan was generated because the URL was classified as benign." in
  tab4 Prescription truthy recommended_actions communication_draft a =
    if an_is_malicious a then
      match generate_prescription genai_provider (input_dict form_values) with
      | inr p =>
          if truthy p
          then PlanView Prescription p (numbered_actions (recommended_actions p))
                 (communication_draft p)
          else benign_message
      | inl _ => benign_message
      end
    else benign_message.
Proof.
  intros a benign_message. subst a benign_message.
  destruct (analyze_cases classification_model clustering_model Prescription
              generate_prescription form_values genai_provider)
    as [[Hm E] | [[Hm (p & G & E)] | [Hm (e & G & E)]]];
    rewrite E in *; cbn; rewrite ?G; reflexivity.
Qed.

(** ** The page: loading the artifacts *)

Section PageFacts.
Variable Prescription : Type.
Variable generate_prescription : string -> InputDict -> string + Prescription.
Variable truthy : Prescription -> bool.
Variable recommended_actions : Prescription -> list string.
Variable communication_draft : Prescription -> string.

Let the_page := page Prescription generate_prescription truthy
                  recommended_actions communication_draft.
Let models_not_found :=
  Stopped Prescription
    "Models not found. Please wait for the initial training to complete, or check the container logs with `make logs` if the error persists.".

(** X9. In a server process that has not loaded the artifacts yet, if one
    of the two model files does not exist the page ends before the form is
    looked at, submitted or not: loading the other file raised, and the
    process still holds nothing; or the page shows the "Models not found"
    error and stops, and then every later run of the script in that process
    ends on the same error, whatever the files hold by then: the result of
    the first load is what the process keeps. *)
Theorem page_stops_without_models
    (fs : FileSystem) (submitted : bool) (form_values : FormValues)
    (genai_provider : string) :
  path_exists fs "models/phishing_url_detector.pkl"
  && path_exists fs "models/threat_actor_profiler.pkl" = false ->
  (exists e,
     the_page None fs submitted form_values genai_provider
       = (LoadRaised Prescription e, None)) \/
  (exists assets,
     the_page None fs submitted form_values genai_provider
       = (models_not_found, Some assets) /\
     forall (fs' : FileSystem) (submitted' : bool) (form_values' : FormValues)
            (genai_provider' : string),
       the_page (Some assets) fs' submitted' form_values' genai_provider'
         = (models_not_found, Some assets)).
Proof.
  intros H. subst the_page models_not_found.
  unfold page, cached_load_assets, load_assets, load_if_exists, load_model.
  change ("models/phishing_url_detector" ++ ".pkl")%string
    with "models/phishing_url_detector.pkl" in *.
  change ("models/threat_actor_profiler" ++ ".pkl")%string
    with "models/threat_actor_profiler.pkl" in *.
  unfold path_exists in *.
  destruct (fs !! "models/phishing_url_detector.pkl") as [[| []] |];
    destruct (fs !! "models/threat_actor_profiler.pkl") as [[| []] |];
    cbn in *; try discriminate H;
    first [ left; eexists; reflexivity
          | right; eexists; split; [reflexivity | intros; reflexivity] ].
Qed.

End PageFacts.

Lemma page_stops_without_models_witness :
  path_exists (∅ : FileSystem) "models/phishing_url_detector.pkl"
  && path_exists (∅ : FileSystem) "models/threat_actor_profiler.pkl" = false /\
  let the_page := page unit working_provider (fun _ => true) (fun _ => [])
                    (fun _ => "") in
  let models_not_found :=
    Stopped unit
      "Models not found. Please wait for the initial training to complete, or check the container logs with `make logs` if the error persists." in
  (exists e, the_page None ∅ true default_form "Gemini" = (LoadRaised unit e, None)) \/
  (exists assets,
     the_page None ∅ true default_form "Gemini" = (models_not_found, Some assets) /\
     forall (fs' : FileSystem) (submitted' : bool) (form_values' : FormValues)
            (genai_provider' : string),
       the_page (Some assets) fs' submitted' form_values' genai_provider'
         = (models_not_found, Some assets)).
Proof.
  split; [reflexivity |].
  exact (page_stops_without_models unit working_provider (fun _ => true)
           (fun _ => []) (fun _ => "") ∅ true default_form "Gemini" eq_refl).
Defined.


(** ** Generator: every sampled value is in its column's domain *)

Lemma choice_in_domain a size p s :
  well_formed_entry (a, p) -> Forall (fun x => x ∈ a) (fst (choice a size p s)).
Proof.
  intros Hwf. revert s. induction size as [| size IH]; intros s.
  - constructor.
  - rewrite choice_S. cbn [fst]. constructor; [now apply choice1_in_domain | apply IH].
Qed.

Lemma sample_columns_in_domain profile size s :
  Forall well_formed_entry profile ->
  Forall2 (fun c e => length c = size /\ Forall (fun x => x ∈ fst e) c)
    (fst (sample_columns profile size s)) profile.
Proof.
  intros Hwf. revert s. induction Hwf as [| [a p] profile Hap _ IH]; intros s.
  - constructor.
  - rewrite sample_columns_cons. cbn [fst]. constructor; [| apply IH].
    split; [apply choice_length | now apply choice_in_domain].
Qed.

Lemma get_field_DataFrame_row data k i :
  get_field k
    (mkInput (column data 0 i) (column data 1 i) (column data 2 i)
       (column data 3 i) (column data 4 i) (column data 5 i)
       (column data 6 i) (column data 7 i) (column data 8 i)
       (column data 9 i) (column data 10 i) (column data 11 i)
       (column data 12 i) (column data 13 i))
  = column data (field_index k) i.
Proof. destruct k; reflexivity. Qed.

Lemma profiles_follow_schema :
  follows_schema state_sponsored_profile /\ follows_schema cybercrime_profile /\
  follows_schema hacktivist_profile /\ follows_schema benign_profile.
Proof. repeat split; intros k; destruct k; reflexivity. Qed.

Lemma sampled_frame_in_domain profile size s :
  Forall well_formed_entry profile -> follows_schema profile ->
  Forall in_domain (DataFrame (fst (sample_columns profile size s))).
Proof.
  intros Hwf Hschema.
  pose proof (sample_columns_in_domain profile size s Hwf) as Hcols.
  set (data := fst (sample_columns profile size s)) in *.
  unfold DataFrame. apply Forall_forall. intros f Hf.
  apply list_elem_of_fmap in Hf as (i & -> & Hi).
  apply elem_of_seq in Hi. intros k.
  rewrite get_field_DataFrame_row. unfold column.
  specialize (Hschema k).
  destruct (profile !! field_index k) as [[a p] |] eqn:Ep; [| discriminate].
  cbn in Hschema. injection Hschema as <-.
  destruct (Forall2_lookup_r _ _ _ _ _ Hcols Ep) as (c & Ec & Hlen & Hin).
  cbn [fst] in Hin.
  assert (Hsize : length (nth 0 data []) = size).
  { destruct (profile !! 0%nat) as [e0 |] eqn:E0.
    - destruct (Forall2_lookup_r _ _ _ _ _ Hcols E0) as (c0 & Ec0 & Hlen0 & _).
      rewrite nth_lookup, Ec0. exact Hlen0.
    - apply lookup_ge_None in E0. apply lookup_lt_Some in Ep. lia. }
  rewrite (nth_lookup data), Ec. cbn [default].
  rewrite Forall_forall in Hin. apply Hin.
  apply list_elem_of_In, nth_In. lia.
Qed.

(** The corpus is a reordering of four sampled frames, each drawn from its
    own profile with the size the row count gives it. *)
Lemma generate_synthetic_data_frames (num_samples : nat) (s : RandomState) :
  let num_phishing := (num_samples / 2)%nat in
  exists s1 s2 s3 s4 : RandomState,
    fst (generate_synthetic_data num_samples s) ≡ₚ
      (with_labels 1 0
         (DataFrame (fst (sample_columns state_sponsored_profile
                            (num_phishing / 3) s1))) ++
       with_labels 1 1
         (DataFrame (fst (sample_columns cybercrime_profile
                            (num_phishing / 3) s2))) ++
       with_labels 1 2
         (DataFrame (fst (sample_columns hacktivist_profile
                            (num_phishing - num_phishing / 3 - num_phishing / 3) s3))) ++
       with_labels 0 (-1)
         (DataFrame (fst (sample_columns benign_profile
                            (num_samples - num_phishing) s4))))%list.
Proof.
  intros num_phishing. unfold generate_synthetic_data. cbv zeta.
  rewrite !rbind_run. fold num_phishing.
  do 4 eexists. apply sample_frac_1_Permutation.
Qed.

(** X11. Every row the generator returns is schema-valid: each of its
    fourteen features holds a value of that column's domain, whatever the
    row count and the state of the random generator. *)
Theorem generated_rows_in_domain (num_samples : nat) (s : RandomState) :
  Forall (fun r => forall k, get_field k (features r) ∈ column_domain k)
    (fst (generate_synthetic_data num_samples s)).
Proof.
  destruct (generate_synthetic_data_frames num_samples s)
    as (s1 & s2 & s3 & s4 & Hperm).
  cbv zeta in Hperm. rewrite Hperm.
  pose proof profiles_well_formed as Hwf.
  rewrite !Forall_app in Hwf. destruct Hwf as (W1 & W2 & W3 & W4).
  destruct profiles_follow_schema as (S1 & S2 & S3 & S4).
  unfold with_labels. rewrite !Forall_app, !Forall_fmap.
  repeat split; now apply sampled_frame_in_domain.
Qed.

(** Rows of each archetype in the corpus. *)
Lemma corpus_archetype_counts (num_samples : nat) (s : RandomState) (a : Z) :
  let num_phishing := (num_samples / 2)%nat in
  count_rows (fun r => threat_actor r = a)
    (fst (generate_synthetic_data num_samples s)) =
  ((if decide (0%Z = a) then num_phishing / 3 else 0)
   + (if decide (1%Z = a) then num_phishing / 3 else 0)
   + (if decide (2%Z = a)
      then num_phishing - num_phishing / 3 - num_phishing / 3 else 0)
   + (if decide ((-1)%Z = a) then num_samples - num_phishing else 0))%nat.
Proof.
  intros num_phishing.
  destruct (generate_synthetic_data_shape num_samples s)
    as (df1 & df2 & df3 & df4 & L1 & L2 & L3 & L4 & Hperm).
  fold num_phishing in L1, L2, L3, L4.
  rewrite (count_rows_Permutation _ _ _ Hperm), !count_rows_app,
    !count_actor_with_labels, L1, L2, L3, L4.
  lia.
Qed.

(** X12. Small corpora miss archetypes: rows of archetype 0 and of
    archetype 1 occur exactly when at least 6 rows are requested, rows of
    archetype 2 exactly when at least 2 are, benign rows exactly when at
    least 1 is; a request for 0 rows gives the empty corpus. *)
Theorem archetypes_present_from_six_rows (num_samples : nat) (s : RandomState) :
  let corpus := fst (generate_synthetic_data num_samples s) in
  let present (a : Z) :=
    (0 < count_rows (fun r => threat_actor r = a) corpus)%nat in
  (present 0 <-> (6 <= num_samples)%nat) /\
  (present 1 <-> (6 <= num_samples)%nat) /\
  (present 2 <-> (2 <= num_samples)%nat) /\
  (present (-1) <-> (1 <= num_samples)%nat) /\
  (corpus = [] <-> num_samples = 0%nat).
Proof.
  intros corpus present. subst present. cbv beta.
  pose proof (Nat.div_mod_eq num_samples 2) as E2.
  pose proof (Nat.mod_upper_bound num_samples 2 ltac:(lia)) as B2.
  pose proof (Nat.div_mod_eq (num_samples / 2) 3) as E3.
  pose proof (Nat.mod_upper_bound (num_samples / 2) 3 ltac:(lia)) as B3.
  assert (C : forall a,
            count_rows (fun r => threat_actor r = a) corpus =
              if decide (a = 0) then (num_samples / 2 / 3)%nat
              else if decide (a = 1) then (num_samples / 2 / 3)%nat
              else if decide (a = 2)
                   then (num_samples / 2 - num_samples / 2 / 3
                         - num_samples / 2 / 3)%nat
              else if decide (a = -1) then (num_samples - num_samples / 2)%nat
              else 0%nat).
  { intros a. subst corpus. rewrite corpus_archetype_counts. cbv zeta.
    repeat case_decide; lia. }
  rewrite !C.
  do 4 (split; [repeat case_decide; lia |]). split.
  - intros E.
    destruct (generate_synthetic_data_shape num_samples s)
      as (df1 & df2 & df3 & df4 & L1 & L2 & L3 & L4 & Hperm).
    fold corpus in Hperm. rewrite E in Hperm. apply Permutation_length in Hperm.
    rewrite !length_app in Hperm. unfold with_labels in Hperm.
    rewrite !length_map in Hperm. cbn in Hperm. lia.
  - intros ->. reflexivity.
Qed.

(** ** Training entry point and the files it leaves *)

Lemma io_bind_inr {A B} (m : IO A) (k : A -> IO B) fs a fs' :
  m fs = (inr a, fs') -> io_bind m k fs = k a fs'.
Proof. intros E. unfold io_bind. now rewrite E. Qed.

Lemma io_bind_inl {A B} (m : IO A) (k : A -> IO B) fs e fs' :
  m fs = (inl e, fs') -> io_bind m k fs = (inl e, fs').
Proof. intros E. unfold io_bind. now rewrite E. Qed.

Lemma makedirs_ok path (fs : FileSystem) :
  (forall c, fs !! path <> Some (File c)) ->
  makedirs path fs = (inr tt, <[path := Dir]> fs).
Proof.
  intros H. unfold makedirs.
  destruct (fs !! path) as [[| c] |]; [reflexivity | | reflexivity].
  now destruct (H c).
Qed.

Lemma write_file_ok path content (fs : FileSystem) :
  fs !! path <> Some Dir ->
  write_file path content fs = (inr tt, <[path := File content]> fs).
Proof.
  intros H. unfold write_file.
  destruct (fs !! path) as [[| c] |]; [contradiction | reflexivity | reflexivity].
Qed.

Lemma no_collision_facts (fs : FileSystem) :
  no_collision fs = true <->
  ((forall c, fs !! "data" <> Some (File c)) /\
   (forall c, fs !! "models" <> Some (File c))) /\
  fs !! "data/phishing_synthetic.csv" <> Some Dir /\
  fs !! "models/phishing_url_detector.pkl" <> Some Dir /\
  fs !! "models/threat_actor_profiler.pkl" <> Some Dir /\
  fs !! "Feature Importance.png" <> Some Dir /\
  fs !! "models/feature_importance.png" <> Some Dir /\
  fs !! "models/threat_clusters.png" <> Some Dir.
Proof.
  unfold no_collision. cbn [forallb].
  rewrite !andb_true_iff.
  assert (NF : forall p,
            match fs !! p with Some (File _) => false | _ => true end = true
            <-> forall c, fs !! p <> Some (File c)).
  { intros p. destruct (fs !! p) as [[| c] |]; split; try congruence; auto.
    intros H. now destruct (H c). }
  assert (ND : forall p,
            match fs !! p with Some Dir => false | _ => true end = true
            <-> fs !! p <> Some Dir).
  { intros p. destruct (fs !! p) as [[| c] |]; split; congruence. }
  rewrite !NF, !ND. tauto.
Qed.

Ltac through_inserts :=
  repeat first [ rewrite lookup_insert_ne by discriminate
               | rewrite lookup_delete_ne by discriminate ].

(** Steps that leave every path outside a given list as it was. *)
Lemma keeps_lift {A} paths (outcome : string + A) : keeps paths (lift outcome).
Proof. intros fs p _. reflexivity. Qed.

Lemma keeps_bind {A B} paths (m : IO A) (k : A -> IO B) :
  keeps paths m -> (forall a, keeps paths (k a)) -> keeps paths (io_bind m k).
Proof.
  intros Hm Hk fs p Hp. unfold io_bind.
  specialize (Hm fs p Hp).
  destruct (m fs) as [[e | a] fs']; cbn [snd] in *; [exact Hm |].
  now rewrite (Hk a fs' p Hp).
Qed.

Lemma keeps_makedirs paths path : path ∈ paths -> keeps paths (makedirs path).
Proof.
  intros Hin fs p Hp. unfold makedirs.
  destruct (fs !! path) as [[| c] |]; cbn [snd]; try reflexivity;
    apply lookup_insert_ne; intros <-; contradiction.
Qed.

Lemma keeps_write_file paths path content :
  path ∈ paths -> keeps paths (write_file path content).
Proof.
  intros Hin fs p Hp. unfold write_file.
  destruct (fs !! path) as [[| c] |]; cbn [snd]; try reflexivity;
    apply lookup_insert_ne; intros <-; contradiction.
Qed.

Lemma keeps_rename paths src dst :
  src ∈ paths -> dst ∈ paths -> keeps paths (rename src dst).
Proof.
  intros Hs Hd fs p Hp. unfold rename.
  destruct (fs !! src) as [[| c] |]; [reflexivity | | reflexivity].
  destruct (fs !! dst) as [[| c'] |]; cbn [snd]; try reflexivity;
    (rewrite lookup_insert_ne by (intros <-; contradiction);
     apply lookup_delete_ne; intros <-; contradiction).
Qed.

Ltac keeps_steps :=
  repeat first
    [ apply keeps_lift
    | apply keeps_bind; [| intros ?]
    | apply keeps_makedirs; apply list_elem_of_In; cbn; tauto
    | apply keeps_write_file; apply list_elem_of_In; cbn; tauto
    | apply keeps_rename; apply list_elem_of_In; cbn; tauto ].

Section TrainFacts.
Variable compare_and_finalize : list Row -> string + (InputDict -> Z -> Q).
Variable create_model_kmeans : list InputDict -> string + (InputDict -> Z).
Variable plot_model : Pipeline -> string + unit.
Variable pca_fit_transform : list InputDict -> list (Q * Q).
Variable plt_scatter : list (Q * Q) -> list PyValue -> string + unit.

Let train' := train compare_and_finalize create_model_kmeans plot_model
                pca_fit_transform plt_scatter.

Lemma train_skips (fs : FileSystem) s :
  path_exists fs "models/phishing_url_detector.pkl"
  && path_exists fs "models/threat_actor_profiler.pkl" = true ->
  train' s fs = (inr tt, fs).
Proof.
  intros H. subst train'. unfold train. cbv zeta.
  change ("models/phishing_url_detector" ++ ".pkl")%string
    with "models/phishing_url_detector.pkl".
  change ("models/threat_actor_profiler" ++ ".pkl")%string
    with "models/threat_actor_profiler.pkl".
  now rewrite H.
Qed.

Lemma train_keeps s : keeps train_paths (train' s).
Proof.
  intros fs p Hp. subst train'. unfold train. cbv zeta.
  destruct (path_exists fs _ && path_exists fs _); [reflexivity |].
  revert fs p Hp.
  unfold create_cluster_visualization, plot_model_feature, save_model.
  cbv zeta. keeps_steps.
Qed.
End TrainFacts.

Lemma before_fitting_no_collision (data : list Row) (fs : FileSystem) :
  no_collision fs = true -> no_collision (before_fitting data fs) = true.
Proof.
  rewrite !no_collision_facts. unfold before_fitting.
  intros ((N1 & N2) & D1 & D2 & D3 & D4 & D5 & D6).
  split; [split; intros c | repeat split]; through_inserts;
    first [ rewrite lookup_insert_eq; discriminate | auto ].
Qed.

(** X13. A training run whose classifier fit raises leaves no model: in a
    working directory without name collisions and with at least one of the two
    pickles missing, if the classification fit raises [e] then [train]
    raises [e] after it has made [data/], written the corpus and made
    [models/], and nothing else has changed: no pickle and no plot is
    written, at least one pickle is still missing, and the next start trains
    again from that directory. *)
Theorem train_stops_when_the_fit_raises
    (compare_and_finalize : list Row -> string + (InputDict -> Z -> Q))
    (create_model_kmeans : list InputDict -> string + (InputDict -> Z))
    (plot_model : Pipeline -> string + unit)
    (pca_fit_transform : list InputDict -> list (Q * Q))
    (plt_scatter : list (Q * Q) -> list PyValue -> string + unit)
    (fs : FileSystem) (s : RandomState) (e : string) :
  no_collision fs = true ->
  path_exists fs "models/phishing_url_detector.pkl"
  && path_exists fs "models/threat_actor_profiler.pkl" = false ->
  compare_and_finalize (fst (generate_synthetic_data 1000 s)) = inl e ->
  let data := fst (generate_synthetic_data 1000 s) in
  let fs' := before_fitting data fs in
  train compare_and_finalize create_model_kmeans plot_model pca_fit_transform
    plt_scatter s fs = (inl e, fs') /\
  fs' !! "data/phishing_synthetic.csv" = Some (File (Csv data)) /\
  Forall (fun p => fs' !! p = fs !! p)
    [ "models/phishing_url_detector.pkl"; "models/threat_actor_profiler.pkl";
      "Feature Importance.png"; "models/feature_importance.png";
      "models/threat_clusters.png" ] /\
  path_exists fs' "models/phishing_url_detector.pkl"
  && path_exists fs' "models/threat_actor_profiler.pkl" = false /\
  no_collision fs' = true.
Proof.
  intros Hnc H Hfit data fs'.
  assert (Hkeep : Forall (fun p => fs' !! p = fs !! p)
            [ "models/phishing_url_detector.pkl"; "models/threat_actor_profiler.pkl";
              "Feature Importance.png"; "models/feature_importance.png";
              "models/threat_clusters.png" ]).
  { subst fs'. unfold before_fitting.
    repeat (apply Forall_cons; split; [now through_inserts |]).
    apply Forall_nil_2. }
  split; [| split; [| split; [exact Hkeep | split]]].
  - pose proof Hnc as Hnc'. apply no_collision_facts in Hnc'.
    destruct Hnc' as ((N1 & N2) & D1 & _).
    unfold train. cbv zeta.
    change ("models/phishing_url_detector" ++ ".pkl")%string
      with "models/phishing_url_detector.pkl".
    change ("models/threat_actor_profiler" ++ ".pkl")%string
      with "models/threat_actor_profiler.pkl".
    rewrite H.
    erewrite io_bind_inr by (apply makedirs_ok; exact N1).
    erewrite io_bind_inr
      by (apply write_file_ok; through_inserts; exact D1).
    erewrite io_bind_inr
      by (apply makedirs_ok; intros c; through_inserts; apply N2).
    apply io_bind_inl. unfold lift, train_classification_model.
    now rewrite Hfit.
  - subst fs'. unfold before_fitting. through_inserts. apply lookup_insert_eq.
  - unfold path_exists in *.
    apply Forall_cons in Hkeep as [-> Hkeep].
    apply Forall_cons in Hkeep as [-> _]. exact H.
  - now apply before_fitting_no_collision.
Qed.

Lemma train_stops_when_the_fit_raises_witness :
  no_collision (∅ : FileSystem) = true /\
  path_exists (∅ : FileSystem) "models/phishing_url_detector.pkl"
  && path_exists (∅ : FileSystem) "models/threat_actor_profiler.pkl" = false /\
  fit_raises (fst (generate_synthetic_data 1000 low_state)) = inl "TypeError" /\
  let data := fst (generate_synthetic_data 1000 low_state) in
  let fs' := before_fitting data ∅ in
  train fit_raises (fun _ => inr (constant_cluster 0)) (fun _ => inr tt)
    (fun X => map (fun _ => (0, 0)%Q) X) (fun _ _ => inr tt) low_state ∅
    = (inl "TypeError", fs') /\
  fs' !! "data/phishing_synthetic.csv" = Some (File (Csv data)) /\
  Forall (fun p => fs' !! p = (∅ : FileSystem) !! p)
    [ "models/phishing_url_detector.pkl"; "models/threat_actor_profiler.pkl";
      "Feature Importance.png"; "models/feature_importance.png";
      "models/threat_clusters.png" ] /\
  path_exists fs' "models/phishing_url_detector.pkl"
  && path_exists fs' "models/threat_actor_profiler.pkl" = false /\
  no_collision fs' = true.
Proof.
  split; [reflexivity |]. split; [reflexivity |]. split; [reflexivity |].
  exact (train_stops_when_the_fit_raises fit_raises
           (fun _ => inr (constant_cluster 0)) (fun _ => inr tt)
           (fun X => map (fun _ => (0, 0)%Q) X) (fun _ _ => inr tt)
           ∅ low_state "TypeError" eq_refl eq_refl eq_refl).
Defined.

(** X15. Footprint of training: whatever the estimators and the plotting
    calls do, return or raise, and whatever the working directory holds,
    [train] changes nothing outside the two directories, the CSV, the two
    pickles and the three plot paths; and when both pickles exist it returns
    at once and changes nothing at all. *)
Theorem train_footprint
    (compare_and_finalize : list Row -> string + (InputDict -> Z -> Q))
    (create_model_kmeans : list InputDict -> string + (InputDict -> Z))
    (plot_model : Pipeline -> string + unit)
    (pca_fit_transform : list InputDict -> list (Q * Q))
    (plt_scatter : list (Q * Q) -> list PyValue -> string + unit)
    (fs : FileSystem) (s : RandomState) :
  let result := train compare_and_finalize create_model_kmeans plot_model
                  pca_fit_transform plt_scatter s fs in
  (forall p, p ∉ train_paths -> snd result !! p = fs !! p) /\
  (path_exists fs "models/phishing_url_detector.pkl"
   && path_exists fs "models/threat_actor_profiler.pkl" = true ->
   result = (inr tt, fs)).
Proof.
  intros result. subst result. split.
  - intros p Hp. now apply train_keeps.
  - apply train_skips.
Qed.

(** X19. The corpus of a run reaches the CSV: in a working directory
    without name collisions and with at least one pickle missing, [train]
    leaves in [data/phishing_synthetic.csv] the 1000 rows generated from the
    state the global generator was in, whether the steps that follow return
    or raise. *)
Theorem train_writes_the_corpus
    (compare_and_finalize : list Row -> string + (InputDict -> Z -> Q))
    (create_model_kmeans : list InputDict -> string + (InputDict -> Z))
    (plot_model : Pipeline -> string + unit)
    (pca_fit_transform : list InputDict -> list (Q * Q))
    (plt_scatter : list (Q * Q) -> list PyValue -> string + unit)
    (fs : FileSystem) (s : RandomState) :
  no_collision fs = true ->
  path_exists fs "models/phishing_url_detector.pkl"
  && path_exists fs "models/threat_actor_profiler.pkl" = false ->
  snd (train compare_and_finalize create_model_kmeans plot_model
         pca_fit_transform plt_scatter s fs) !! "data/phishing_synthetic.csv"
    = Some (File (Csv (fst (generate_synthetic_data 1000 s)))).
Proof.
  intros Hnc H. apply no_collision_facts in Hnc.
  destruct Hnc as ((N1 & _) & D1 & _).
  unfold train. cbv zeta.
  change ("models/phishing_url_detector" ++ ".pkl")%string
    with "models/phishing_url_detector.pkl".
  change ("models/threat_actor_profiler" ++ ".pkl")%string
    with "models/threat_actor_profiler.pkl".
  rewrite H.
  erewrite io_bind_inr by (apply makedirs_ok; exact N1).
  erewrite io_bind_inr by (apply write_file_ok; through_inserts; exact D1).
  match goal with
  | |- snd (?rest ?fs2) !! _ = _ =>
      assert (K : keeps [ "models"; "models/phishing_url_detector.pkl";
                          "models/threat_actor_profiler.pkl";
                          "Feature Importance.png";
                          "models/feature_importance.png";
                          "models/threat_clusters.png" ] rest)
  end.
  { unfold create_cluster_visualization, plot_model_feature, save_model.
    cbv zeta. keeps_steps. }
  rewrite K.
  - apply lookup_insert_eq.
  - intros Hin. apply list_elem_of_In in Hin. cbn in Hin.
    intuition discriminate.
Qed.

Lemma train_writes_the_corpus_witness :
  no_collision (∅ : FileSystem) = true /\
  path_exists (∅ : FileSystem) "models/phishing_url_detector.pkl"
  && path_exists (∅ : FileSystem) "models/threat_actor_profiler.pkl" = false /\
  snd (train fit_returns (fun _ => inr (constant_cluster 0)) (fun _ => inr tt)
         (fun X => map (fun _ => (0, 0)%Q) X) (fun _ _ => inr tt) low_state ∅)
    !! "data/phishing_synthetic.csv"
    = Some (File (Csv (fst (generate_synthetic_data 1000 low_state)))).
Proof.
  split; [reflexivity |]. split; [reflexivity |].
  exact (train_writes_the_corpus fit_returns
           (fun _ => inr (constant_cluster 0)) (fun _ => inr tt)
           (fun X => map (fun _ => (0, 0)%Q) X) (fun _ _ => inr tt)
           ∅ low_state eq_refl eq_refl).
Defined.

(** ** Generator: runs that are not seeded *)


(** ** From the form to the risk total *)

(** X17. The total shown for a form is the sum of fixed points for what the
    form says: 25 when the certificate is "None" or "Suspicious", 20 for an
    abnormal URL, 15 for a prefix or suffix, 15 for a shortened URL, 10 when
    the sub-domain is neither "None" nor "One", 10 when the length is
    neither "Short" nor "Normal", 5 for an IP address, 10 for political
    keywords and 15 when the sophistication is neither "Low" nor "Medium". *)
Theorem risk_total_of_form (form_values : FormValues) :
  let is_one_of (s a b : string) := String.eqb s a || String.eqb s b in
  risk_total (risk_scores (input_dict form_values)) =
    (if is_one_of (ssl_state form_values) "None" "Suspicious" then 25 else 0)
    + (if abnormal_url form_values then 20 else 0)
    + (if prefix_suffix form_values then 15 else 0)
    + (if short_service form_values then 15 else 0)
    + (if is_one_of (sub_domain form_values) "None" "One" then 0 else 10)
    + (if is_one_of (url_length form_values) "Short" "Normal" then 0 else 10)
    + (if has_ip form_values then 5 else 0)
    + (if political_keyword form_values then 10 else 0)
    + (if is_one_of (sophistication form_values) "Low" "Medium" then 0 else 15).
Proof.
  destruct form_values as [u s d p i h a b k l]. cbv zeta.
  cbn -[String.eqb].
  destruct (String.eqb s "None"), (String.eqb s "Suspicious"),
    (String.eqb d "None"), (String.eqb d "One"),
    (String.eqb u "Short"), (String.eqb u "Normal"),
    (String.eqb l "Low"), (String.eqb l "Medium"),
    p, i, h, b, k; reflexivity.
Qed.

(** ** The confidence figure of the first tab *)

(** X18. The figure shown as "Malicious Confidence Score" is the score for
    a malicious verdict and one minus the score for a benign one: the
    rounded probability of class 1 in the first case and one minus the
    rounded probability of class 0 in the second.  It is at least 0.5 for a
    malicious verdict and at most 0.5 for a benign one, and it is always
    within 0.00005 of the probability the classifier gives to class 1. *)
Theorem malicious_confidence_score_is_positive_class
    (classification_model : InputDict -> Q) (clustering_model : InputDict -> Z)
    (Prescription : Type)
    (generate_prescription : string -> InputDict -> string + Prescription)
    (form_values : FormValues) (genai_provider : string) :
  let a := fst (analyze classification_model clustering_model generate_prescription
                  form_values genai_provider) in
  let p1 := classification_model (input_dict form_values) in
  malicious_confidence_score a
    = (if an_is_malicious a then round4 p1 else 1 - round4 (1 - p1))%Q /\
  (an_is_malicious a = true -> (1 # 2 <= malicious_confidence_score a)%Q) /\
  (an_is_malicious a = false -> (malicious_confidence_score a <= 1 # 2)%Q) /\
  (Qabs (malicious_confidence_score a - p1) <= 1 # 20000)%Q.
Proof.
  intros a p1.
  destruct (analyze_common classification_model clustering_model Prescription
              generate_prescription form_values genai_provider)
    as (_ & _ & Hp & Hm).
  fold a in Hp, Hm.
  unfold malicious_confidence_score. rewrite Hm, Hp.
  unfold predict_model. fold p1.
  pose proof (round4_close p1) as C1.
  pose proof (round4_close (1 - p1)) as C0.
  apply Qabs_Qle_condition in C1. apply Qabs_Qle_condition in C0.
  destruct (Qle_bool p1 (1 - p1)) eqn:E;
    cbn [prediction_label prediction_score Z.eqb Pos.eqb].
  - apply Qle_bool_iff in E.
    pose proof (round4_at_least_half (1 - p1) ltac:(lra)) as Hhalf.
    split; [reflexivity |]. split; [discriminate |].
    split; [intros _; lra |].
    apply Qabs_Qle_condition. split; lra.
  - assert (N : ~ (p1 <= 1 - p1)%Q).
    { intros H. apply Qle_bool_iff in H. congruence. }
    pose proof (round4_at_least_half p1 ltac:(lra)) as Hhalf.
    split; [reflexivity |]. split; [intros _; exact Hhalf |].
    split; [discriminate |].
    apply Qabs_Qle_condition. split; lra.
Qed.
